(** * Document text extraction and message content processing

    A shallow embedding of [src/common/document_parsers.py] and of the
    message helpers of [src/react_agent/utils.py].

    Python values are modelled as follows.
    - [str] is a list of Unicode code points ([pystr]); [bytes] is a
      [list byte].
    - A raised exception is an [exn] (its class and the text [str(e)]
      gives); a Python expression that may raise evaluates to a [result].
      Only classes derived from [Exception] are modelled: interpreter
      signals such as [KeyboardInterrupt] are outside the model.
    - A [dict] is a [gmap] keyed by strings; message objects live in a
      store keyed by object identity, so aliasing is visible. *)

From Stdlib Require Import NArith List String Lia.
From Stdlib Require Import Strings.Byte.
From stdpp Require Import gmap strings list.

(** ** Strings *)

Module Str.
Local Open Scope N_scope.

Definition codepoint := N.
Definition pystr := list codepoint.
Definition bytes := list byte.

Definition in_range (lo hi : N) (b : byte) : bool :=
  (lo <=? Byte.to_N b) && (Byte.to_N b <=? hi).

(** The six payload bits of a continuation byte. *)
Definition low6 (b : byte) : N := N.land (Byte.to_N b) 0x3F.

(** [bytes.decode("utf-8")] with the default strict error handler:
    [None] stands for [UnicodeDecodeError].  Over-long forms, surrogates
    and values above U+10FFFF are rejected, as the codec does. *)
Fixpoint utf8_decode (bs : bytes) : option pystr :=
  match bs with
  | [] => Some []
  | b0 :: r0 =>
    let n0 := Byte.to_N b0 in
    if n0 <? 0x80 then cons n0 <$> utf8_decode r0
    else if n0 <? 0xC2 then None
    else if n0 <? 0xE0 then
      match r0 with
      | b1 :: r1 =>
        if in_range 0x80 0xBF b1
        then cons (N.lor (N.shiftl (N.land n0 0x1F) 6) (low6 b1))
               <$> utf8_decode r1
        else None
      | _ => None
      end
    else if n0 <? 0xF0 then
      match r0 with
      | b1 :: b2 :: r2 =>
        let lo := if n0 =? 0xE0 then 0xA0 else 0x80 in
        let hi := if n0 =? 0xED then 0x9F else 0xBF in
        if in_range lo hi b1 && in_range 0x80 0xBF b2
        then cons (N.lor (N.shiftl (N.land n0 0x0F) 12)
                     (N.lor (N.shiftl (low6 b1) 6) (low6 b2)))
               <$> utf8_decode r2
        else None
      | _ => None
      end
    else if n0 <? 0xF5 then
      match r0 with
      | b1 :: b2 :: b3 :: r3 =>
        let lo := if n0 =? 0xF0 then 0x90 else 0x80 in
        let hi := if n0 =? 0xF4 then 0x8F else 0xBF in
        if in_range lo hi b1 && in_range 0x80 0xBF b2
           && in_range 0x80 0xBF b3
        then cons (N.lor (N.shiftl (N.land n0 0x07) 18)
                     (N.lor (N.shiftl (low6 b1) 12)
                        (N.lor (N.shiftl (low6 b2) 6) (low6 b3))))
               <$> utf8_decode r3
        else None
      | _ => None
      end
    else None
  end.

(** [bytes.decode("latin-1")]: byte [n] is code point [n]. *)
Definition latin1_decode (bs : bytes) : option pystr :=
  Some (map Byte.to_N bs).

(** A string literal of the source file.  The sources are UTF-8, so the
    literal's code points are the UTF-8 reading of the quoted bytes. *)
Definition lit (s : string) : pystr :=
  default [] (utf8_decode (list_byte_of_string s)).

(** [str.isspace] for one code point (the characters [str.strip]
    removes). *)
Definition isspace (c : codepoint) : bool :=
  ((0x09 <=? c) && (c <=? 0x0D)) || ((0x1C <=? c) && (c <=? 0x20))
  || (c =? 0x85) || (c =? 0xA0) || (c =? 0x1680)
  || ((0x2000 <=? c) && (c <=? 0x200A))
  || (c =? 0x2028) || (c =? 0x2029) || (c =? 0x202F) || (c =? 0x205F)
  || (c =? 0x3000).

Fixpoint lstrip (s : pystr) : pystr :=
  match s with
  | c :: s' => if isspace c then lstrip s' else s
  | [] => []
  end.

Definition rstrip (s : pystr) : pystr := rev (lstrip (rev s)).

(** [s.strip()] *)
Definition strip (s : pystr) : pystr := rstrip (lstrip s).

(** [s.lower()].  Code points above U+007F go through the Unicode case
    tables in Python; none of them lower-cases to a character that
    occurs in the suffixes tested by the parsers, so the suffix tests see
    the result given here. *)
Definition lower_char (c : codepoint) : codepoint :=
  if (0x41 <=? c) && (c <=? 0x5A) then c + 0x20 else c.

Definition lower (s : pystr) : pystr := map lower_char s.

(** [s.startswith(p)] and [s.endswith(p)] *)
Definition startswith (s p : pystr) : bool := bool_decide (p `prefix_of` s).
Definition endswith (s p : pystr) : bool := bool_decide (p `suffix_of` s).

(** [str.join] with the empty separator. *)
Definition join (parts : list pystr) : pystr := concat parts.

(** Decimal rendering of a number, as [%d] formats it. *)
Fixpoint digits (u : Decimal.uint) : pystr :=
  match u with
  | Decimal.Nil => []
  | Decimal.D0 u => 0x30 :: digits u
  | Decimal.D1 u => 0x31 :: digits u
  | Decimal.D2 u => 0x32 :: digits u
  | Decimal.D3 u => 0x33 :: digits u
  | Decimal.D4 u => 0x34 :: digits u
  | Decimal.D5 u => 0x35 :: digits u
  | Decimal.D6 u => 0x36 :: digits u
  | Decimal.D7 u => 0x37 :: digits u
  | Decimal.D8 u => 0x38 :: digits u
  | Decimal.D9 u => 0x39 :: digits u
  end.

Definition decimal (n : N) : pystr := digits (N.to_uint n).
End Str.
Export Str.

(** ** Exceptions *)

Module Exn.
(** The exception classes the code names or can meet.  [OtherError] is
    any further subclass of [Exception] a library raises. *)
Inductive exn_class :=
| Exception
| ImportError
| ModuleNotFoundError
| ValueError
| UnicodeDecodeError
| BinasciiError
| OtherError.

#[export] Instance exn_class_eq_dec : EqDecision exn_class.
Proof. solve_decision. Defined.

(** [issubclass(c, d)] on the classes above. *)
Definition issubclass (c d : exn_class) : bool :=
  match d with
  | Exception => true
  | ImportError =>
    match c with ImportError | ModuleNotFoundError => true | _ => false end
  | ValueError =>
    match c with
    | ValueError | UnicodeDecodeError | BinasciiError => true
    | _ => false
    end
  | _ => bool_decide (c = d)
  end.

(** An exception instance: its class and [str(e)]. *)
Record exn := { exn_cls : exn_class; exn_str : pystr }.

Inductive result (A : Type) :=
| Ok (a : A)
| Raise (e : exn).
Arguments Ok {A} a.
Arguments Raise {A} e.

#[export] Instance result_ret : MRet result := fun A a => Ok a.
#[export] Instance result_bind : MBind result := fun A B f r =>
  match r with
  | Ok a => f a
  | Raise e => Raise e
  end.

(** [try: body  except cls as e: handler e] *)
Definition try_except {A} (body : result A) (cls : exn_class)
    (handler : exn -> result A) : result A :=
  match body with
  | Ok a => Ok a
  | Raise e => if issubclass (exn_cls e) cls then handler e else Raise e
  end.

Definition is_ok {A} (r : result A) : bool :=
  match r with Ok _ => true | Raise _ => false end.
End Exn.
Export Exn.

(** ** Codecs and the base64 module *)

Module Codec.
Local Open Scope N_scope.

(** A codec's strict decoder; [None] is a failed decoding. *)
Definition codec := bytes -> option pystr.

(** [b.decode(name)]: a failed decoding raises [UnicodeDecodeError].  The
    code never reads that exception's text, which is left schematic. *)
Definition decode (c : codec) (b : bytes) : result pystr :=
  match c b with
  | Some s => Ok s
  | None =>
    Raise {| exn_cls := UnicodeDecodeError;
             exn_str := lit "codec can't decode bytes" |}
  end.

(** [binascii]'s alphabet table: the 6-bit value of a character. *)
Definition b64_value (c : codepoint) : option N :=
  if (0x41 <=? c) && (c <=? 0x5A) then Some (c - 0x41)
  else if (0x61 <=? c) && (c <=? 0x7A) then Some (c - 0x61 + 26)
  else if (0x30 <=? c) && (c <=? 0x39) then Some (c - 0x30 + 52)
  else if c =? 0x2B then Some 62
  else if c =? 0x2F then Some 63
  else None.

Definition byte_of (n : N) : byte :=
  default x00 (Byte.of_N (N.land n 0xFF)).

Definition binascii_error (msg : pystr) : exn :=
  {| exn_cls := BinasciiError; exn_str := msg |}.

(** The loop of [binascii.a2b_base64] in its default, non-strict mode:
    characters outside the alphabet are skipped, a complete pad sequence
    ends the input, and [out] collects the bytes written so far. *)
Fixpoint a2b_base64 (s : pystr) (quad_pos leftchar pads : N) (out : bytes)
    : result bytes :=
  match s with
  | [] =>
    if quad_pos =? 0 then Ok out
    else if quad_pos =? 1 then
      Raise (binascii_error
        (lit "Invalid base64-encoded string: number of data characters ("
         ++ decimal (N.of_nat (length out) / 3 * 4 + 1)
         ++ lit ") cannot be 1 more than a multiple of 4"))
    else Raise (binascii_error (lit "Incorrect padding"))
  | ch :: s' =>
    if ch =? 0x3D then
      if 2 <=? quad_pos then
        if 4 <=? quad_pos + (pads + 1) then Ok out
        else a2b_base64 s' quad_pos leftchar (pads + 1) out
      else a2b_base64 s' quad_pos leftchar pads out
    else
      match b64_value ch with
      | None => a2b_base64 s' quad_pos leftchar pads out
      | Some v =>
        if quad_pos =? 0 then a2b_base64 s' 1 v 0 out
        else if quad_pos =? 1 then
          a2b_base64 s' 2 (N.land v 0x0F) 0
            (out ++ [byte_of (N.lor (N.shiftl leftchar 2) (N.shiftr v 4))])
        else if quad_pos =? 2 then
          a2b_base64 s' 3 (N.land v 0x03) 0
            (out ++ [byte_of (N.lor (N.shiftl leftchar 4) (N.shiftr v 2))])
        else
          a2b_base64 s' 0 0 0
            (out ++ [byte_of (N.lor (N.shiftl leftchar 6) v)])
      end
  end.

(** [base64.b64decode(s)] for a [str] argument: the string is first
    encoded as ASCII, which fails with [ValueError] on any other
    character. *)
Definition b64decode (s : pystr) : result bytes :=
  if forallb (fun c => c <? 0x80) s then a2b_base64 s 0 0 0 []
  else Raise {| exn_cls := ValueError;
                exn_str :=
                  lit "string argument should contain only ASCII characters" |}.

(** An excerpt of the GBK code table, enough for the examples below:
    ASCII bytes stand for themselves and the listed two-byte codes for
    their characters; it decodes nothing else. *)
Definition gbk_table_excerpt : list (byte * byte * codepoint) :=
  [ (xc4, xe3, 0x4F60); (xba, xc3, 0x597D); (xce, xc4, 0x6587) ].

Fixpoint gbk_lookup (t : list (byte * byte * codepoint)) (b0 b1 : byte)
    : option codepoint :=
  match t with
  | [] => None
  | (c0, c1, u) :: t' =>
    if Byte.eqb c0 b0 && Byte.eqb c1 b1 then Some u
    else gbk_lookup t' b0 b1
  end.

Fixpoint gbk_excerpt_decode (bs : bytes) : option pystr :=
  match bs with
  | [] => Some []
  | b0 :: r0 =>
    if Byte.to_N b0 <? 0x80 then cons (Byte.to_N b0) <$> gbk_excerpt_decode r0
    else
      match r0 with
      | b1 :: r1 =>
        match gbk_lookup gbk_table_excerpt b0 b1 with
        | Some u => cons u <$> gbk_excerpt_decode r1
        | None => None
        end
      | [] => None
      end
  end.
End Codec.
Export Codec.

(** ** The Python environment

    What the parsers import at run time and what this repository does not
    define: the GBK code table and the two optional third-party packages.
    A package that is not installed is [None]. *)

(** [PyPDF2.PdfReader(io.BytesIO(b))]: the reader's construction may raise;
    it yields, for each page of [.pages], the outcome of [extract_text()]. *)
Definition pdf_library := bytes -> result (list (result pystr)).

(** [docx.Document(io.BytesIO(b))]: the [.text] of each of [.paragraphs]. *)
Definition docx_library := bytes -> result (list pystr).

Class Runtime := {
  gbk : codec;
  PyPDF2 : option pdf_library;
  docx : option docx_library
}.

(** [import name] *)
Definition import {L} (package : option L) (name : string) : result L :=
  match package with
  | Some m => Ok m
  | None =>
    Raise {| exn_cls := ModuleNotFoundError;
             exn_str := lit "No module named '" ++ lit name ++ lit "'" |}
  end.

Definition nl : pystr := [0x0A%N].

(** ** common/document_parsers.py *)

(** [class DocumentParser(ABC)]: the two abstract methods.  [supports] is a
    predicate; [parse] may raise. *)
Record DocumentParser := {
  parse : bytes -> pystr -> result pystr;
  supports : pystr -> pystr -> bool
}.

(** [class DocumentParserFactory]: its one attribute. *)
Record DocumentParserFactory := { _parsers : list DocumentParser }.

Section DocumentParsers.
Context {rt : Runtime}.

(** [for page in pdf_reader.pages: text += page.extract_text() + "\n"] *)
Fixpoint PDFParser_pages (pages : list (result pystr)) (text : pystr)
    : result pystr :=
  match pages with
  | [] => Ok text
  | page :: rest =>
    extracted ← page;
    PDFParser_pages rest (text ++ (extracted ++ nl))
  end.

Definition PDFParser_parse (file_bytes : bytes) (filename : pystr)
    : result pystr :=
  try_except
    (try_except
       (PdfReader ← import PyPDF2 "PyPDF2";
        pages ← PdfReader file_bytes;
        text ← PDFParser_pages pages [];
        Ok (strip text))
       ImportError
       (fun _ => Ok (lit "[PDF 处理需要安装 PyPDF2 库]")))
    Exception
    (fun e => Ok (lit "[PDF 处理错误: " ++ exn_str e ++ lit "]")).

Definition PDFParser_supports (mime_type filename : pystr) : bool :=
  bool_decide (mime_type = lit "application/pdf")
  || endswith (lower filename) (lit ".pdf").

Definition PDFParser : DocumentParser :=
  {| parse := PDFParser_parse; supports := PDFParser_supports |}.

(** [for paragraph in doc.paragraphs: text += paragraph.text + "\n"] *)
Fixpoint DocxParser_paragraphs (paragraphs : list pystr) (text : pystr)
    : pystr :=
  match paragraphs with
  | [] => text
  | paragraph :: rest =>
    DocxParser_paragraphs rest (text ++ (paragraph ++ nl))
  end.

Definition DocxParser_parse (file_bytes : bytes) (filename : pystr)
    : result pystr :=
  try_except
    (try_except
       (Document ← import docx "docx";
        paragraphs ← Document file_bytes;
        Ok (strip (DocxParser_paragraphs paragraphs [])))
       ImportError
       (fun _ => Ok (lit "[DOCX 处理需要安装 python-docx 库]")))
    Exception
    (fun e => Ok (lit "[DOCX 处理错误: " ++ exn_str e ++ lit "]")).

Definition DocxParser_supports (mime_type filename : pystr) : bool :=
  bool_decide (mime_type ∈
    [ lit "application/msword";
      lit "application/vnd.openxmlformats-officedocument.wordprocessingml.document" ])
  || endswith (lower filename) (lit ".doc")
  || endswith (lower filename) (lit ".docx").

Definition DocxParser : DocumentParser :=
  {| parse := DocxParser_parse; supports := DocxParser_supports |}.

Definition TextParser_parse (file_bytes : bytes) (filename : pystr)
    : result pystr :=
  try_except
    (try_except (decode utf8_decode file_bytes) UnicodeDecodeError
       (fun _ =>
          try_except (decode gbk file_bytes) UnicodeDecodeError
            (fun _ =>
               try_except (decode latin1_decode file_bytes)
                 UnicodeDecodeError
                 (fun _ =>
                    Ok (lit "[无法解码文本文件 " ++ filename ++ lit "]")))))
    Exception
    (fun e => Ok (lit "[文本文件处理错误: " ++ exn_str e ++ lit "]")).

Definition TextParser_supports (mime_type filename : pystr) : bool :=
  startswith mime_type (lit "text/")
  || endswith (lower filename) (lit ".txt")
  || endswith (lower filename) (lit ".md")
  || endswith (lower filename) (lit ".csv")
  || endswith (lower filename) (lit ".json")
  || endswith (lower filename) (lit ".xml")
  || endswith (lower filename) (lit ".html")
  || endswith (lower filename) (lit ".htm").

Definition TextParser : DocumentParser :=
  {| parse := TextParser_parse; supports := TextParser_supports |}.

(** [DocumentParserFactory.__init__] *)
Definition DocumentParserFactory_init : DocumentParserFactory :=
  {| _parsers := [PDFParser; DocxParser; TextParser] |}.

(** The module-level instance as the import of the module leaves it. *)
Definition _parser_factory : DocumentParserFactory :=
  DocumentParserFactory_init.
End DocumentParsers.

(** [for parser in self._parsers: if parser.supports(..): return parser] *)
Fixpoint get_parser_loop (parsers : list DocumentParser)
    (mime_type filename : pystr) : option DocumentParser :=
  match parsers with
  | [] => None
  | parser :: rest =>
    if supports parser mime_type filename then Some parser
    else get_parser_loop rest mime_type filename
  end.

Definition get_parser (self : DocumentParserFactory)
    (mime_type filename : pystr) : option DocumentParser :=
  get_parser_loop (_parsers self) mime_type filename.

(** [self._parsers.append(parser)] *)
Definition register_parser (self : DocumentParserFactory)
    (parser : DocumentParser) : DocumentParserFactory :=
  {| _parsers := _parsers self ++ [parser] |}.

(** [extract_file_content], reading the module-level factory in the state
    [factory]. *)
Definition extract_file_content (factory : DocumentParserFactory)
    (base64_data filename mime_type : pystr) : result pystr :=
  try_except
    (file_bytes ← b64decode base64_data;
     match get_parser factory mime_type filename with
     | None =>
       Ok (lit "[不支持的文件类型: " ++ mime_type ++ lit " for "
           ++ filename ++ lit "]")
     | Some parser => parse parser file_bytes filename
     end)
    Exception
    (fun e =>
       Ok (lit "[处理文件 " ++ filename ++ lit " 时出错: " ++ exn_str e
           ++ lit "]")).

(** A parser a client may register: it claims every file whose name ends
    in [.zip]. *)
Definition ZipParser : DocumentParser :=
  {| parse := fun _ filename => Ok (lit "[zip archive " ++ filename ++ lit "]");
     supports := fun _ filename => endswith filename (lit ".zip") |}.

(** ** react_agent/utils.py *)

(** A structured content part: a [dict] whose values have the types the
    message boundary gives them, strings under every key but [metadata],
    which holds a [dict] of strings. *)
Record part_dict := {
  fields : gmap string pystr;
  metadata : option (gmap string pystr)
}.

(** An element of a content list: a [str], a [dict], or a value of any
    other type, which the loop passes over. *)
Inductive part :=
| PStr (s : pystr)
| PDict (item : part_dict)
| POther.

(** [Union[str, list[Union[str, dict]]]] *)
Inductive message_content :=
| CStr (s : pystr)
| CList (parts : list part).

(** [d.get(key, default)] *)
Definition dict_get (d : gmap string pystr) (key : string) (dflt : pystr)
    : pystr :=
  default dflt (d !! key).

(** [d.get(key) == value] *)
Definition dict_get_is (d : gmap string pystr) (key : string) (value : pystr)
    : bool :=
  bool_decide (d !! key = Some value).

(** One iteration of the loop over [content]; [processed_content] is the
    list being appended to. *)
Definition process_item (factory : DocumentParserFactory) (item : part)
    (processed_content : list pystr) : result (list pystr) :=
  match item with
  | PStr s => Ok (processed_content ++ [s])
  | PDict d =>
    if dict_get_is (fields d) "type" (lit "text") then
      Ok (processed_content ++ [dict_get (fields d) "text" []])
    else if dict_get_is (fields d) "type" (lit "file")
            && dict_get_is (fields d) "source_type" (lit "base64") then
      let file_data := dict_get (fields d) "data" [] in
      let metadata := default ∅ (metadata d) in
      let filename := dict_get metadata "filename" (lit "unknown_file") in
      let mime_type :=
        dict_get (fields d) "mime_type" (lit "application/octet-stream") in
      file_content ← extract_file_content factory file_data filename mime_type;
      Ok (processed_content
          ++ [nl ++ nl ++ lit "文件内容 (" ++ filename ++ lit "):" ++ nl
              ++ file_content])
    else Ok processed_content
  | POther => Ok processed_content
  end.

Fixpoint process_items (factory : DocumentParserFactory) (content : list part)
    (processed_content : list pystr) : result (list pystr) :=
  match content with
  | [] => Ok processed_content
  | item :: rest =>
    processed_content' ← process_item factory item processed_content;
    process_items factory rest processed_content'
  end.

Definition process_message_content (factory : DocumentParserFactory)
    (content : message_content) : result pystr :=
  match content with
  | CStr s => Ok s
  | CList parts =>
    processed_content ← process_items factory parts [];
    Ok (strip (join processed_content))
  end.

(** A message object.  [has_model_copy] is [hasattr(message, 'model_copy')];
    [attrs] holds every attribute other than [content]. *)
Record message := {
  has_model_copy : bool;
  content : message_content;
  attrs : gmap string pystr
}.

(** Objects are held in a store and named by their identity, so that two
    references to one object see each other's assignments. *)
Abbreviation ref := positive (only parsing).
Abbreviation store := (gmap positive message) (only parsing).

(** [message.model_copy()]: a new object with the same attribute values. *)
Definition model_copy (h : store) (m : message) : ref * store :=
  let r := fresh (dom h) in (r, <[r := m]> h).

(** [obj.content = value] *)
Definition set_content (value : pystr) (m : message) : message :=
  {| has_model_copy := has_model_copy m;
     content := CStr value;
     attrs := attrs m |}.

(** The loop of [process_messages] from the store [h].  It yields the
    final store and either the list returned or the exception that left
    the loop; [None] only when a reference names no object, which no
    Python program can produce. *)
Fixpoint process_messages_loop (factory : DocumentParserFactory)
    (messages processed_messages : list ref) (h : store)
    : option (store * result (list ref)) :=
  match messages with
  | [] => Some (h, Ok processed_messages)
  | message :: rest =>
    m ← h !! message;
    let '(processed_message, h1) :=
      if has_model_copy m then model_copy h m else (message, h) in
    match process_message_content factory (content m) with
    | Raise e => Some (h1, Raise e)
    | Ok value =>
      pm ← h1 !! processed_message;
      process_messages_loop factory rest
        (processed_messages ++ [processed_message])
        (<[processed_message := set_content value pm]> h1)
    end
  end.

Definition process_messages (factory : DocumentParserFactory)
    (messages : list ref) (h : store) : option (store * result (list ref)) :=
  process_messages_loop factory messages [] h.

(** ** Reference definitions, following the specification's wording *)

(** "Attempts decode in priority order; returns the first successful
    decode." *)
Fixpoint first_successful_decode (codecs : list codec) (b : bytes)
    : option pystr :=
  match codecs with
  | [] => None
  | c :: later =>
    match c b with
    | Some s => Some s
    | None => first_successful_decode later b
    end
  end.

(** "Returns the first variant whose supports predicate is true, or none
    if no match", for the three built-in variants in their order. *)
Definition first_builtin_match `{Runtime} (mime_type filename : pystr)
    : option DocumentParser :=
  if supports PDFParser mime_type filename then Some PDFParser
  else if supports DocxParser mime_type filename then Some DocxParser
  else if supports TextParser mime_type filename then Some TextParser
  else None.

(** What one part contributes to the processed content: a plain string
    itself, a [type=text] part its text field, a [type=file] part with a
    base64 source the formatted output of the facade, any other part
    nothing. *)
Definition contribution (factory : DocumentParserFactory) (p : part)
    : result pystr :=
  match p with
  | PStr s => Ok s
  | PDict d =>
    if dict_get_is (fields d) "type" (lit "text")
    then Ok (dict_get (fields d) "text" [])
    else if dict_get_is (fields d) "type" (lit "file")
            && dict_get_is (fields d) "source_type" (lit "base64")
    then
      let filename :=
        dict_get (default ∅ (metadata d)) "filename" (lit "unknown_file") in
      extracted ← extract_file_content factory
        (dict_get (fields d) "data" []) filename
        (dict_get (fields d) "mime_type" (lit "application/octet-stream"));
      Ok (nl ++ nl ++ lit "文件内容" ++ lit " (" ++ filename ++ lit "):"
          ++ nl ++ extracted)
    else Ok []
  | POther => Ok []
  end.

(** ** Sample data *)

(** An environment with neither optional package installed. *)
Definition bare_runtime : Runtime :=
  {| gbk := gbk_excerpt_decode; PyPDF2 := None; docx := None |}.

(** The content of the §8 example message. *)
Definition example_content : message_content :=
  CList
    [ PDict {| fields := {[ "type" := lit "text"; "text" := lit "hello" ]};
               metadata := None |};
      PDict {| fields := {[ "type" := lit "file";
                            "source_type" := lit "base64";
                            "data" := lit "aGk=";
                            "mime_type" := lit "text/plain" ]};
               metadata := Some {[ "filename" := lit "a.txt" ]} |} ].

(** A message object that has no [model_copy] attribute, and a store in
    which it is object 1. *)
Definition plain_message : message :=
  {| has_model_copy := false;
     content :=
       CList [ PDict {| fields := {[ "type" := lit "text";
                                     "text" := lit "hello" ]};
                        metadata := None |} ];
     attrs := {[ "id" := lit "m1" ]} |}.

Definition plain_store : store := {[ 1%positive := plain_message ]}.

(** [registered extra]: the module-level factory after the registrations
    [register_parser(p)] for the parsers [p] of [extra], in order. *)
Definition registered `{Runtime} (extra : list DocumentParser)
    : DocumentParserFactory :=
  fold_left register_parser extra _parser_factory.

(** ** Further functions of common/document_parsers.py *)

Section DirectExtraction.
Context {rt : Runtime}.

(** [extract_pdf_content]: a new [PDFParser] applied under the fixed
    name [document.pdf]. *)
Definition extract_pdf_content (file_bytes : bytes) : result pystr :=
  parse PDFParser file_bytes (lit "document.pdf").

(** [extract_docx_content]: a new [DocxParser] applied under the fixed
    name [document.docx]. *)
Definition extract_docx_content (file_bytes : bytes) : result pystr :=
  parse DocxParser file_bytes (lit "document.docx").
End DirectExtraction.

(** ** Further functions of react_agent/utils.py *)

(** [msg.content] as [get_message_text] tests it: a [str], a [dict], or
    else a sequence of parts. *)
Inductive text_content :=
| TStr (s : pystr)
| TDict (d : part_dict)
| TList (parts : list part).

(** One element of the comprehension of [get_message_text]:
    [c if isinstance(c, str) else (c.get("text") or "")].  An element that
    is neither a [str] nor a [dict] has no [get] and raises
    [AttributeError], a class outside those the code names. *)
Definition part_text (c : part) : result pystr :=
  match c with
  | PStr s => Ok s
  | PDict d => Ok (dict_get (fields d) "text" [])
  | POther =>
    Raise {| exn_cls := OtherError;
             exn_str := lit "object has no attribute 'get'" |}
  end.

Definition get_message_text (content : text_content) : result pystr :=
  match content with
  | TStr s => Ok s
  | TDict d => Ok (dict_get (fields d) "text" [])
  | TList parts =>
    txts ← mapM part_text parts;
    Ok (strip (join txts))
  end.

(** [s.split(sep, maxsplit=1)] for a one-character separator; [before]
    holds the characters read so far. *)
Fixpoint split_once_from (sep : codepoint) (before s : pystr) : list pystr :=
  match s with
  | [] => [before]
  | c :: s' =>
    if (c =? sep)%N then [before; s']
    else split_once_from sep (before ++ [c]) s'
  end.

Definition split_once (sep : codepoint) (s : pystr) : list pystr :=
  split_once_from sep [] s.

Definition slash : codepoint := 0x2F%N.

(** [load_chat_model].  [init_chat_model] is the langchain function, given
    here its positional argument [model] and then [model_provider]; the
    tuple assignment raises [ValueError] unless the split has exactly two
    items. *)
Definition load_chat_model {M} (init_chat_model : pystr -> pystr -> result M)
    (fully_specified_name : pystr) : result M :=
  match split_once slash fully_specified_name with
  | [provider; model] => init_chat_model model provider
  | _ =>
    Raise {| exn_cls := ValueError;
             exn_str := lit "not enough values to unpack (expected 2, got 1)" |}
  end.

(** ** Predicates used in the statements below *)

(** A part both text functions read alike: a string, or a [dict] tagged
    [type=text]. *)
Definition plain_part (p : part) : bool :=
  match p with
  | PStr _ => true
  | PDict d => dict_get_is (fields d) "type" (lit "text")
  | POther => false
  end.

(** A part [process_message_content] passes over: neither a string, nor
    tagged [type=text], nor a [type=file] part with a base64 source. *)
Definition skipped_part (p : part) : bool :=
  match p with
  | PStr _ => false
  | PDict d =>
    negb (dict_get_is (fields d) "type" (lit "text"))
    && negb (dict_get_is (fields d) "type" (lit "file")
             && dict_get_is (fields d) "source_type" (lit "base64"))
  | POther => true
  end.

(** A page or paragraph text as the parse loops append it. *)
Definition with_newline (t : pystr) : pystr := t ++ nl.

(** A MIME type none of the built-in parsers recognises by itself. *)
Definition unrecognised_mime (mime_type : pystr) : bool :=
  negb (bool_decide (mime_type = lit "application/pdf"))
  && negb (bool_decide (mime_type ∈
       [ lit "application/msword";
         lit "application/vnd.openxmlformats-officedocument.wordprocessingml.document" ]))
  && negb (startswith mime_type (lit "text/")).

(** The message [process_messages] leaves for the input object [m]: the
    same attributes, with the processed content. *)
Definition processed (factory : DocumentParserFactory) (m : message)
    : message :=
  match process_message_content factory (content m) with
  | Ok s => set_content s m
  | Raise _ => m
  end.

(** Every object of the initial store [h0] is, in [h], as it was or in its
    processed state. *)
Definition tracks (factory : DocumentParserFactory) (h0 h : store) : Prop :=
  forall r m0, h0 !! r = Some m0 ->
    h !! r = Some m0 \/ h !! r = Some (processed factory m0).

(** Sample environments and data for the instances below. *)

(** A PDF package that reads every file as two pages. *)
Definition two_page_pdf : pdf_library :=
  fun _ => Ok [Ok (lit "first page"); Ok (lit "second page")].

(** A PDF package whose reader rejects every file. *)
Definition failing_pdf : pdf_library :=
  fun _ => Raise {| exn_cls := OtherError; exn_str := lit "EOF marker not found" |}.

(** A Word package that reads every file as two paragraphs. *)
Definition two_paragraph_docx : docx_library :=
  fun _ => Ok [lit "Title"; lit "Body text."].

Definition failing_docx : docx_library :=
  fun _ => Raise {| exn_cls := OtherError; exn_str := lit "File is not a zip file" |}.

Definition full_runtime : Runtime :=
  {| gbk := gbk_excerpt_decode;
     PyPDF2 := Some two_page_pdf;
     docx := Some two_paragraph_docx |}.

Definition broken_files_runtime : Runtime :=
  {| gbk := gbk_excerpt_decode;
     PyPDF2 := Some failing_pdf;
     docx := Some failing_docx |}.

(** A message object that offers [model_copy]. *)
Definition copyable_message : message :=
  {| has_model_copy := true;
     content := CList [ PStr (lit " hi ") ];
     attrs := {[ "id" := lit "m2" ]} |}.

Definition mixed_store : store :=
  {[ 1%positive := plain_message; 2%positive := copyable_message ]}.

(** * Properties *)

(** ** Exceptions and handlers *)

Lemma try_except_Exception_ok {A} (body : result A) (handler : exn -> A) :
  exists a, try_except body Exception (fun e => Ok (handler e)) = Ok a.
Proof.
  destruct body as [a|e]; simpl.
  - by exists a.
  - by exists (handler e).
Qed.

(** The facade's outermost handler turns every outcome of its body into a
    returned string. *)
Lemma extract_file_content_returns factory base64_data filename mime_type :
  exists s,
    extract_file_content factory base64_data filename mime_type = Ok s.
Proof. unfold extract_file_content. apply try_except_Exception_ok. Qed.

(** C1: for every state of the registry and every input triple,
    [extract_file_content] returns a string; no exception, whether raised
    by the base64 decoding or by the chosen parser, reaches its caller. *)
Theorem extract_file_content_never_raises
    (factory : DocumentParserFactory) (base64_data filename mime_type : pystr) :
  exists s, extract_file_content factory base64_data filename mime_type = Ok s.
Proof. unfold extract_file_content. apply try_except_Exception_ok. Qed.

(** ** The registry *)

Section Registry.
Context {rt : Runtime}.

Lemma get_parser_loop_app_Some ps qs mime_type filename p :
  get_parser_loop ps mime_type filename = Some p ->
  get_parser_loop (ps ++ qs) mime_type filename = Some p.
Proof.
  induction ps as [|q ps IH]; simpl; [done|].
  destruct (supports q mime_type filename); [done|]. apply IH.
Qed.

Lemma get_parser_loop_app_None ps qs mime_type filename :
  get_parser_loop ps mime_type filename = None ->
  get_parser_loop (ps ++ qs) mime_type filename
  = get_parser_loop qs mime_type filename.
Proof.
  induction ps as [|q ps IH]; simpl; [done|].
  destruct (supports q mime_type filename); [done|]. apply IH.
Qed.

Lemma get_parser_loop_None ps mime_type filename :
  get_parser_loop ps mime_type filename = None <->
  Forall (fun p => supports p mime_type filename = false) ps.
Proof.
  induction ps as [|q ps IH]; simpl.
  - split; [constructor|done].
  - destruct (supports q mime_type filename) eqn:Hq.
    + split; [done|]. intros HF. apply Forall_cons in HF as [HF _].
      congruence.
    + rewrite IH. split; [by constructor|].
      intros HF. by apply Forall_cons in HF as [_ HF].
Qed.

(** The parser returned supports the file and every parser before it in
    the sequence does not. *)
Lemma get_parser_loop_Some ps mime_type filename p :
  get_parser_loop ps mime_type filename = Some p <->
  exists before after,
    ps = before ++ p :: after
    /\ Forall (fun q => supports q mime_type filename = false) before
    /\ supports p mime_type filename = true.
Proof.
  induction ps as [|q ps IH]; simpl.
  - split; [done|]. intros (before & after & Heq & _).
    by destruct before.
  - destruct (supports q mime_type filename) eqn:Hq.
    + split.
      * intros [= ->]. exists [], ps. by repeat split.
      * intros (before & after & Heq & HF & Hp).
        destruct before as [|q' before]; simplify_eq/=; [done|].
        apply Forall_cons in HF as [HF _]. congruence.
    + rewrite IH. split.
      * intros (before & after & -> & HF & Hp).
        exists (q :: before), after. repeat split; [|done].
        by constructor.
      * intros (before & after & Heq & HF & Hp).
        destruct before as [|q' before]; simplify_eq/=; [congruence|].
        apply Forall_cons in HF as [_ HF]. by exists before, after.
Qed.

Lemma registered_parsers extra :
  _parsers (registered extra) = [PDFParser; DocxParser; TextParser] ++ extra.
Proof.
  unfold registered.
  change [PDFParser; DocxParser; TextParser] with (_parsers _parser_factory).
  generalize _parser_factory.
  induction extra as [|p extra IH]; intros f; simpl.
  - by rewrite app_nil_r.
  - rewrite IH. simpl. by rewrite <- app_assoc.
Qed.

(** C2: on the registry as initialised, [get_parser] returns the first of
    PDF, Word, Text whose [supports] holds and [None] when none holds; a
    file the PDF parser supports goes to the PDF parser, whatever the
    Text parser says of it. *)
Theorem get_parser_builtin_priority (mime_type filename : pystr) :
  get_parser _parser_factory mime_type filename
  = first_builtin_match mime_type filename
  /\ (get_parser _parser_factory mime_type filename = None <->
      supports PDFParser mime_type filename = false
      /\ supports DocxParser mime_type filename = false
      /\ supports TextParser mime_type filename = false)
  /\ (supports PDFParser mime_type filename = true ->
      get_parser _parser_factory mime_type filename = Some PDFParser).
Proof.
  unfold get_parser, first_builtin_match. simpl.
  split; [done|]. split.
  - destruct (PDFParser_supports mime_type filename),
      (DocxParser_supports mime_type filename),
      (TextParser_supports mime_type filename);
      (split; [try done; by repeat split | by intros (? & ? & ?)]).
  - by intros ->.
Qed.
End Registry.

(** ** The text parser *)

Section Text.
Context {rt : Runtime}.

Lemma latin1_bound (bs : bytes) : Forall (fun c => (c < 256)%N) (map Byte.to_N bs).
Proof.
  apply Forall_forall. intros c Hc. apply list_elem_of_In, in_map_iff in Hc as (b & <- & _).
  pose proof (Byte.to_N_bounded b). lia.
Qed.

(** The placeholder opens with a bracket and a character outside
    Latin-1. *)
Lemma cannot_decode_head :
  exists tl, lit "[无法解码文本文件 " = 0x5B%N :: 0x65E0%N :: tl.
Proof. vm_compute. by eexists. Qed.

Lemma TextParser_parse_utf8 file_bytes filename s :
  utf8_decode file_bytes = Some s ->
  TextParser_parse file_bytes filename = Ok s.
Proof. unfold TextParser_parse, decode. by intros ->. Qed.

Lemma TextParser_parse_gbk file_bytes filename s :
  utf8_decode file_bytes = None -> gbk file_bytes = Some s ->
  TextParser_parse file_bytes filename = Ok s.
Proof. unfold TextParser_parse, decode. by intros -> ->. Qed.

Lemma TextParser_parse_latin1 file_bytes filename :
  utf8_decode file_bytes = None -> gbk file_bytes = None ->
  TextParser_parse file_bytes filename = Ok (map Byte.to_N file_bytes).
Proof. unfold TextParser_parse, decode. by intros -> ->. Qed.

(** C3: [TextParser.parse] returns the first successful decoding among
    UTF-8, GBK and Latin-1, tried in that order; bytes that are not UTF-8
    but are GBK come out as their GBK decoding. *)
Theorem TextParser_parse_fallback_order (file_bytes : bytes) (filename : pystr) :
  (exists s,
     first_successful_decode [utf8_decode; gbk; latin1_decode] file_bytes
     = Some s
     /\ parse TextParser file_bytes filename = Ok s)
  /\ (forall s,
        utf8_decode file_bytes = None -> gbk file_bytes = Some s ->
        parse TextParser file_bytes filename = Ok s).
Proof.
  split.
  - simpl. destruct (utf8_decode file_bytes) as [s|] eqn:Hu.
    { exists s. split; [done|]. by apply TextParser_parse_utf8. }
    destruct (gbk file_bytes) as [s|] eqn:Hg.
    { exists s. split; [done|]. by apply TextParser_parse_gbk. }
    eexists. split; [done|]. by apply TextParser_parse_latin1.
  - intros s Hu Hg. by apply TextParser_parse_gbk.
Qed.

(** C10: Latin-1 decodes every byte sequence, so the handler guarding
    that decoding never runs: when UTF-8 and GBK both fail, [parse]
    returns the Latin-1 decoding, which is never the cannot-decode
    placeholder. *)
Theorem TextParser_parse_latin1_total (file_bytes : bytes) (filename : pystr) :
  decode latin1_decode file_bytes = Ok (map Byte.to_N file_bytes)
  /\ (forall handler,
        try_except (decode latin1_decode file_bytes) UnicodeDecodeError handler
        = Ok (map Byte.to_N file_bytes))
  /\ (utf8_decode file_bytes = None -> gbk file_bytes = None ->
      parse TextParser file_bytes filename = Ok (map Byte.to_N file_bytes)
      /\ parse TextParser file_bytes filename
         <> Ok (lit "[无法解码文本文件 " ++ filename ++ lit "]")).
Proof.
  split; [done|]. split; [done|]. intros Hu Hg.
  cbn [parse TextParser]. rewrite TextParser_parse_latin1 by done.
  split; [done|].
  destruct cannot_decode_head as [tl Htl]. rewrite Htl.
  intros [= Heq]. pose proof (latin1_bound file_bytes) as Hb.
  rewrite Heq in Hb.
  apply Forall_cons in Hb as [_ Hb].
  apply Forall_cons in Hb as [Hb _]. lia.
Qed.
End Text.

(** ** The facade *)

Section Facade.
Context {rt : Runtime}.

Lemma extract_file_content_no_parser factory base64_data filename mime_type :
  is_ok (b64decode base64_data) = true ->
  get_parser factory mime_type filename = None ->
  extract_file_content factory base64_data filename mime_type
  = Ok (lit "[不支持的文件类型: " ++ mime_type ++ lit " for " ++ filename
        ++ lit "]").
Proof.
  unfold extract_file_content. intros Hdata ->.
  by destruct (b64decode base64_data).
Qed.

(** C4 (amended): when the payload is well-formed base64 and no registered
    parser supports the file, the facade returns the placeholder
    [[不支持的文件类型: <mime_type> for <filename>]], with the prefix as
    the source spells it. *)
Theorem extract_file_content_unsupported
    (factory : DocumentParserFactory) (base64_data filename mime_type : pystr) :
  is_ok (b64decode base64_data) = true ->
  Forall (fun p => supports p mime_type filename = false) (_parsers factory) ->
  extract_file_content factory base64_data filename mime_type
  = Ok (lit "[不支持的文件类型: " ++ mime_type ++ lit " for " ++ filename
        ++ lit "]").
Proof.
  intros Hdata Hnone. apply extract_file_content_no_parser; [done|].
  by apply get_parser_loop_None.
Qed.

Lemma TextParser_supports_text_plain filename :
  TextParser_supports (lit "text/plain") filename = true.
Proof.
  unfold TextParser_supports.
  by replace (startswith (lit "text/plain") (lit "text/")) with true
    by (by vm_compute).
Qed.

(** C7 (amended): with MIME type [text/plain], a file name that neither
    the PDF nor the Word parser supports and a payload that decodes to
    UTF-8 text, the facade returns that text as decoded, whitespace
    included. *)
Theorem extract_file_content_text_plain_utf8
    (extra : list DocumentParser) (base64_data filename : pystr)
    (file_bytes : bytes) (text : pystr) :
  b64decode base64_data = Ok file_bytes ->
  utf8_decode file_bytes = Some text ->
  supports PDFParser (lit "text/plain") filename = false ->
  supports DocxParser (lit "text/plain") filename = false ->
  extract_file_content (registered extra) base64_data filename
    (lit "text/plain")
  = Ok text.
Proof.
  intros Hdata Hutf8 Hpdf Hdocx. unfold extract_file_content, get_parser.
  rewrite Hdata, registered_parsers. cbn [mbind result_bind].
  cbn [app get_parser_loop]. rewrite Hpdf, Hdocx.
  cbn [supports TextParser]. rewrite TextParser_supports_text_plain.
  cbn [parse TextParser]. by rewrite (TextParser_parse_utf8 _ _ text).
Qed.

(** C6: [register_parser] appends at the end, the lowest priority, and
    leaves the earlier parsers in place and in order; every file some
    parser supported before is still routed to the same parser, and a file
    left unmatched before goes to the new parser when it supports it. *)
Theorem register_parser_appends
    (factory : DocumentParserFactory) (custom : DocumentParser) :
  _parsers (register_parser factory custom) = _parsers factory ++ [custom]
  /\ (forall mime_type filename,
        get_parser (register_parser factory custom) mime_type filename
        = match get_parser factory mime_type filename with
          | Some p => Some p
          | None =>
            if supports custom mime_type filename then Some custom else None
          end)
  /\ (forall mime_type filename p,
        get_parser factory mime_type filename = Some p ->
        get_parser (register_parser factory custom) mime_type filename
        = Some p)
  /\ (forall mime_type filename,
        get_parser factory mime_type filename = None ->
        supports custom mime_type filename = true ->
        get_parser (register_parser factory custom) mime_type filename
        = Some custom).
Proof.
  split; [done|]. unfold get_parser. cbn [register_parser _parsers].
  split; [|split].
  - intros mime_type filename.
    destruct (get_parser_loop (_parsers factory) mime_type filename)
      as [p|] eqn:Hold.
    + by apply get_parser_loop_app_Some.
    + by rewrite get_parser_loop_app_None.
  - intros mime_type filename p. apply get_parser_loop_app_Some.
  - intros mime_type filename Hnone Hcustom.
    rewrite get_parser_loop_app_None by done. simpl. by rewrite Hcustom.
Qed.
End Facade.

(** ** Message content *)

Section Content.
Context {rt : Runtime}.

Lemma join_snoc (acc : list pystr) (c : pystr) :
  join (acc ++ [c]) = join acc ++ c.
Proof. unfold join. rewrite concat_app. simpl. by rewrite app_nil_r. Qed.

Lemma process_item_contribution factory p acc :
  exists c acc',
    contribution factory p = Ok c
    /\ process_item factory p acc = Ok acc'
    /\ join acc' = join acc ++ c.
Proof.
  destruct p as [s|d|]; cbn [contribution process_item].
  - exists s, (acc ++ [s]).
    split; [done|]. split; [done|]. apply join_snoc.
  - destruct (dict_get_is (fields d) "type" (lit "text")).
    { eexists. exists (acc ++ [dict_get (fields d) "text" []]).
      split; [done|]. split; [done|]. apply join_snoc. }
    destruct (dict_get_is (fields d) "type" (lit "file")
              && dict_get_is (fields d) "source_type" (lit "base64")).
    + match goal with
      | |- context [extract_file_content ?f ?a ?b ?c] =>
          destruct (extract_file_content_returns f a b c) as [out ->]
      end.
      cbn [mbind result_bind]. eexists. eexists.
      split; [reflexivity|]. split; [reflexivity|].
      by rewrite join_snoc.
    + exists [], acc. split; [done|]. split; [done|]. by rewrite app_nil_r.
  - exists [], acc. split; [done|]. split; [done|]. by rewrite app_nil_r.
Qed.

Lemma process_items_contributions factory parts : forall acc,
  exists contributions acc',
    mapM (contribution factory) parts = Ok contributions
    /\ process_items factory parts acc = Ok acc'
    /\ join acc' = join acc ++ join contributions.
Proof.
  induction parts as [|p parts IH]; intros acc.
  - exists [], acc. split; [done|]. split; [done|].
    unfold join. simpl. by rewrite app_nil_r.
  - destruct (process_item_contribution factory p acc)
      as (c & acc1 & Hc & Hp & Hj).
    destruct (IH acc1) as (cs & acc2 & Hcs & Hps & Hjs).
    exists (c :: cs), acc2.
    cbn [mapM process_items]. rewrite Hc, Hp. cbn [mbind result_bind].
    rewrite Hcs. split; [done|]. split; [done|].
    rewrite Hjs, Hj. unfold join. simpl. by rewrite <- app_assoc.
Qed.

Lemma process_message_content_returns factory content :
  exists s, process_message_content factory content = Ok s.
Proof.
  destruct content as [s|parts]; simpl; [by exists s|].
  destruct (process_items_contributions factory parts [])
    as (cs & acc & _ & -> & _).
  by eexists.
Qed.

(** C5: on a list of parts the processor returns the contributions of the
    parts, concatenated in order and stripped; on the §8 example it
    returns "hello", a blank line, the label with [a.txt], and "hi". *)
Theorem process_message_content_concatenates
    (factory : DocumentParserFactory) (parts : list part) :
  (exists contributions,
     mapM (contribution factory) parts = Ok contributions
     /\ process_message_content factory (CList parts)
        = Ok (strip (join contributions)))
  /\ process_message_content _parser_factory example_content
     = Ok (lit "hello" ++ nl ++ nl ++ lit "文件内容 (a.txt):" ++ nl
           ++ lit "hi").
Proof.
  split.
  - destruct (process_items_contributions factory parts [])
      as (cs & acc & Hcs & Hacc & Hj).
    exists cs. split; [done|]. simpl. rewrite Hacc. simpl.
    by rewrite Hj.
  - by vm_compute.
Qed.

(** C9: a plain string is returned as it is, so processing the result of
    a processing changes nothing. *)
Theorem process_message_content_idempotent
    (factory : DocumentParserFactory) (content : message_content) :
  (forall s, process_message_content factory (CStr s) = Ok s)
  /\ (once ← process_message_content factory content;
      process_message_content factory (CStr once))
     = process_message_content factory content.
Proof.
  split; [done|].
  by destruct (process_message_content factory content).
Qed.
End Content.

(** ** Message lists *)

Section Messages.
Context {rt : Runtime}.

Lemma Forall2_with_left {A B} (P : A -> Prop) (Q R : A -> B -> Prop) l k :
  Forall P l -> Forall2 Q l k ->
  (forall x y, P x -> Q x y -> R x y) ->
  Forall2 R l k.
Proof.
  intros HP HQ HR. induction HQ as [|x y l k Hxy _ IH]; [constructor|].
  apply Forall_cons in HP as [Hx HP]. constructor; [by apply HR|by apply IH].
Qed.

(** A message that offers [model_copy] is copied: the returned list names
    new objects, the store only grows, so the caller's objects keep their
    content and attributes. *)
Lemma process_messages_loop_copies factory messages : forall acc (h : store),
  Forall (fun r => exists m, h !! r = Some m /\ has_model_copy m = true)
    messages ->
  exists (h' : store) out,
    process_messages_loop factory messages acc h = Some (h', Ok (acc ++ out))
    /\ h ⊆ h'
    /\ Forall2 (fun r r' => exists m s,
                  h !! r = Some m
                  /\ process_message_content factory (content m) = Ok s
                  /\ h !! r' = None
                  /\ h' !! r' = Some (set_content s m))
         messages out.
Proof.
  induction messages as [|r rest IH]; intros acc h Hall.
  - exists h, []. rewrite app_nil_r. by repeat split.
  - apply Forall_cons in Hall as [(m & Hm & Hcopy) Hrest].
    destruct (process_message_content_returns factory (content m)) as [s Hs].
    set (r' := fresh (dom h)).
    assert (Hfresh : h !! r' = None).
    { apply not_elem_of_dom. apply is_fresh. }
    set (h2 := <[r' := set_content s m]> h).
    assert (Hsub : h ⊆ h2) by by apply insert_subseteq.
    destruct (IH (acc ++ [r']) h2) as (h' & out & Hloop & Hsub' & Hout).
    { eapply Forall_impl; [exact Hrest|]. intros r0 (m0 & Hm0 & Hc0).
      exists m0. split; [|done]. by eapply lookup_weaken. }
    exists h', (r' :: out). split; [|split].
    + cbn [process_messages_loop]. rewrite Hm. cbn [mbind option_bind].
      rewrite Hcopy. cbn [model_copy]. fold r'. rewrite Hs.
      rewrite lookup_insert_eq. cbn [mbind option_bind].
      rewrite insert_insert_eq. fold h2. rewrite Hloop.
      by rewrite <- app_assoc.
    + by transitivity h2.
    + constructor.
      * exists m, s. split; [done|]. split; [done|]. split; [done|].
        eapply lookup_weaken; [|exact Hsub']. apply lookup_insert_eq.
      * eapply Forall2_with_left; [exact Hrest|exact Hout|].
        intros r0 r0' (m1 & Hm1 & _) (m0 & s0 & Hm0 & Hs0 & Hnew & Hres).
        assert (m0 = m1) as ->.
        { pose proof (lookup_weaken _ _ _ _ Hm1 Hsub). congruence. }
        exists m1, s0. split; [done|]. split; [done|]. split; [|done].
        destruct (h !! r0') as [x|] eqn:Hx; [|done].
        pose proof (lookup_weaken _ _ _ _ Hx Hsub). congruence.
Qed.

(** The copying path: on messages that offer [model_copy],
    [process_messages] returns as many messages as it was given, each a
    new object holding the processed content and the attributes of the
    corresponding input, and leaves every object of the caller as it
    was. *)
Theorem process_messages_copies factory messages (h : store) :
  Forall (fun r => exists m, h !! r = Some m /\ has_model_copy m = true)
    messages ->
  exists (h' : store) out,
    process_messages factory messages h = Some (h', Ok out)
    /\ length out = length messages
    /\ (forall r m, h !! r = Some m -> h' !! r = Some m)
    /\ Forall2 (fun r r' => exists m s,
                  h !! r = Some m
                  /\ process_message_content factory (content m) = Ok s
                  /\ h' !! r' = Some (set_content s m))
         messages out.
Proof.
  intros Hall.
  destruct (process_messages_loop_copies factory messages [] h Hall)
    as (h' & out & Hloop & Hsub & Hout).
  exists h', out. split; [exact Hloop|]. split; [|split].
  - symmetry. by eapply Forall2_length.
  - intros r m Hr. by eapply lookup_weaken.
  - eapply Forall2_impl; [exact Hout|].
    intros r r' (m & s & ? & ? & ? & ?). by exists m, s.
Qed.
End Messages.

(** C8, the failing case: a message without [model_copy] is not copied.
    The list returned names the caller's own object, and that object's
    content has been overwritten with the processed string. *)
Theorem process_messages_overwrites_original (factory : DocumentParserFactory) :
  plain_store !! 1%positive = Some plain_message
  /\ has_model_copy plain_message = false
  /\ exists h' : store,
       process_messages factory [1%positive] plain_store
       = Some (h', Ok [1%positive])
       /\ h' !! 1%positive = Some (set_content (lit "hello") plain_message)
       /\ content (set_content (lit "hello") plain_message) = CStr (lit "hello")
       /\ content plain_message
          = CList [ PDict {| fields := {[ "type" := lit "text";
                                          "text" := lit "hello" ]};
                             metadata := None |} ].
Proof.
  split; [done|]. split; [done|].
  eexists. split; [by vm_compute|]. split; [by vm_compute|]. done.
Qed.

(** * Concrete instances *)

Lemma get_parser_builtin_priority_witness :
  supports (@TextParser bare_runtime) (lit "text/plain") (lit "a.pdf") = true
  /\ get_parser (@_parser_factory bare_runtime) (lit "text/plain") (lit "a.pdf")
     = Some (@PDFParser bare_runtime).
Proof.
  split; [reflexivity|].
  destruct (@get_parser_builtin_priority bare_runtime
              (lit "text/plain") (lit "a.pdf")) as (_ & _ & Hpdf).
  apply Hpdf. reflexivity.
Defined.

Lemma TextParser_parse_fallback_order_witness :
  utf8_decode [xc4; xe3; xba; xc3] = None
  /\ @gbk bare_runtime [xc4; xe3; xba; xc3] = Some [0x4F60; 0x597D]%N
  /\ parse (@TextParser bare_runtime) [xc4; xe3; xba; xc3] (lit "a.txt")
     = Ok [0x4F60; 0x597D]%N.
Proof.
  split; [reflexivity|]. split; [reflexivity|].
  destruct (@TextParser_parse_fallback_order bare_runtime
              [xc4; xe3; xba; xc3] (lit "a.txt")) as (_ & Hgbk).
  apply Hgbk; reflexivity.
Defined.

Lemma TextParser_parse_latin1_total_witness :
  utf8_decode [xff] = None
  /\ @gbk bare_runtime [xff] = None
  /\ parse (@TextParser bare_runtime) [xff] (lit "a.txt") = Ok [0xFF%N].
Proof.
  split; [reflexivity|]. split; [reflexivity|].
  destruct (@TextParser_parse_latin1_total bare_runtime [xff] (lit "a.txt"))
    as (_ & _ & Hlatin1).
  destruct Hlatin1 as [Hparse _]; [reflexivity..|exact Hparse].
Defined.

Lemma extract_file_content_unsupported_witness :
  extract_file_content (@_parser_factory bare_runtime)
    (lit "aGk=") (lit "archive.zip") (lit "application/zip")
  = Ok (lit "[不支持的文件类型: application/zip for archive.zip]").
Proof.
  apply (extract_file_content_unsupported (@_parser_factory bare_runtime)
           (lit "aGk=") (lit "archive.zip") (lit "application/zip")).
  - reflexivity.
  - repeat constructor.
Defined.

(** The placeholder does not read [[unsupported file type: ...]]. *)
Lemma extract_file_content_unsupported_counterexample :
  is_ok (b64decode (lit "aGk=")) = true
  /\ get_parser (@_parser_factory bare_runtime)
       (lit "application/zip") (lit "archive.zip") = None
  /\ extract_file_content (@_parser_factory bare_runtime)
       (lit "aGk=") (lit "archive.zip") (lit "application/zip")
     <> Ok (lit "[unsupported file type: application/zip for archive.zip]").
Proof.
  split; [reflexivity|]. split; [reflexivity|].
  vm_compute. discriminate.
Qed.

Lemma extract_file_content_text_plain_utf8_witness :
  extract_file_content (@registered bare_runtime []) (lit "IGhp") (lit "a.txt")
    (lit "text/plain")
  = Ok (lit " hi").
Proof.
  apply (@extract_file_content_text_plain_utf8 bare_runtime []
           (lit "IGhp") (lit "a.txt") [x20; x68; x69] (lit " hi"));
    reflexivity.
Defined.

(** Decoded text keeps its surrounding whitespace, and a [text/plain]
    file named [*.pdf] goes to the PDF parser. *)
Lemma extract_file_content_text_plain_counterexample :
  (b64decode (lit "IGhp") = Ok [x20; x68; x69]
   /\ utf8_decode [x20; x68; x69] = Some (lit " hi")
   /\ extract_file_content (@_parser_factory bare_runtime)
        (lit "IGhp") (lit "a.txt") (lit "text/plain") = Ok (lit " hi")
   /\ strip (lit " hi") <> lit " hi")
  /\ (b64decode (lit "aGk=") = Ok [x68; x69]
      /\ utf8_decode [x68; x69] = Some (lit "hi")
      /\ extract_file_content (@_parser_factory bare_runtime)
           (lit "aGk=") (lit "a.pdf") (lit "text/plain")
         = Ok (lit "[PDF 处理需要安装 PyPDF2 库]")
      /\ lit "[PDF 处理需要安装 PyPDF2 库]" <> lit "hi").
Proof.
  split.
  - split; [reflexivity|]. split; [reflexivity|]. split; [reflexivity|].
    vm_compute. discriminate.
  - split; [reflexivity|]. split; [reflexivity|]. split; [reflexivity|].
    vm_compute. discriminate.
Qed.

Lemma register_parser_appends_witness :
  get_parser (register_parser (@_parser_factory bare_runtime) ZipParser)
    (lit "application/zip") (lit "archive.zip") = Some ZipParser
  /\ get_parser (register_parser (@_parser_factory bare_runtime) ZipParser)
       (lit "application/pdf") (lit "paper.zip") = Some (@PDFParser bare_runtime).
Proof.
  destruct (register_parser_appends (@_parser_factory bare_runtime) ZipParser)
    as (_ & _ & Hkept & Hnew).
  split.
  - apply Hnew; reflexivity.
  - apply Hkept. reflexivity.
Defined.

(** Lowest priority at work: a [.zip] file declared [text/plain] was
    matched by the Text parser before the registration and still is. *)
Example register_parser_keeps_text_plain_zip :
  supports ZipParser (lit "text/plain") (lit "notes.zip") = true
  /\ get_parser (register_parser (@_parser_factory bare_runtime) ZipParser)
       (lit "text/plain") (lit "notes.zip") = Some (@TextParser bare_runtime)
  /\ get_parser (register_parser (@_parser_factory bare_runtime) ZipParser)
       (lit "text/plain") (lit "notes.zip") <> Some ZipParser.
Proof.
  split; [reflexivity|]. split; [reflexivity|].
  intros Heq.
  assert (Hs := f_equal (fun o : option DocumentParser =>
                           match o with
                           | Some p => supports p (lit "text/plain") (lit "notes")
                           | None => false
                           end) Heq).
  vm_compute in Hs. discriminate.
Qed.

(** ** Sanity checks of the library models *)

Example utf8_decode_ascii : utf8_decode [x68; x69] = Some [0x68; 0x69]%N.
Proof. reflexivity. Qed.

Example utf8_decode_rejects_overlong : utf8_decode [xc0; x80] = None.
Proof. reflexivity. Qed.

Example utf8_decode_rejects_surrogate : utf8_decode [xed; xa0; x80] = None.
Proof. reflexivity. Qed.

Example lit_cjk : lit "文件" = [0x6587; 0x4EF6]%N.
Proof. reflexivity. Qed.

Example b64decode_hi : b64decode (lit "aGk=") = Ok [x68; x69].
Proof. reflexivity. Qed.

Example b64decode_missing_padding :
  b64decode (lit "aGk") = Raise (binascii_error (lit "Incorrect padding")).
Proof. reflexivity. Qed.

Example b64decode_skips_foreign_characters :
  b64decode (lit "a G*k=") = Ok [x68; x69].
Proof. reflexivity. Qed.

Example extract_file_content_bad_base64 :
  extract_file_content (@_parser_factory bare_runtime)
    (lit "aGk") (lit "a.txt") (lit "text/plain")
  = Ok (lit "[处理文件 a.txt 时出错: Incorrect padding]").
Proof. reflexivity. Qed.

Example extract_file_content_pdf_without_library :
  extract_file_content (@_parser_factory bare_runtime)
    (lit "aGk=") (lit "Report.PDF") (lit "application/octet-stream")
  = Ok (lit "[PDF 处理需要安装 PyPDF2 库]").
Proof. reflexivity. Qed.

Example strip_example : strip (32 :: lit "hello" ++ nl)%N = lit "hello".
Proof. reflexivity. Qed.

(** * Further properties *)

(** ** The built-in parsers *)

Section Parsers.
Context {rt : Runtime}.

Lemma PDFParser_pages_all_ok texts : forall acc,
  PDFParser_pages (map Ok texts) acc
  = Ok (acc ++ join (map with_newline texts)).
Proof.
  unfold join, with_newline.
  induction texts as [|t texts IH]; intros acc; cbn [map PDFParser_pages].
  - simpl. by rewrite app_nil_r.
  - cbn [mbind result_bind]. rewrite IH. simpl. by rewrite <- app_assoc.
Qed.

Lemma PDFParser_pages_raise texts e rest : forall acc,
  PDFParser_pages (map Ok texts ++ Raise e :: rest) acc = Raise e.
Proof.
  induction texts as [|t texts IH]; intros acc; [done|].
  cbn [map app PDFParser_pages mbind result_bind]. apply IH.
Qed.

Lemma DocxParser_paragraphs_join paragraphs : forall acc,
  DocxParser_paragraphs paragraphs acc
  = acc ++ join (map with_newline paragraphs).
Proof.
  unfold join, with_newline.
  induction paragraphs as [|t ps IH]; intros acc; cbn [map DocxParser_paragraphs].
  - simpl. by rewrite app_nil_r.
  - rewrite IH. simpl. by rewrite <- app_assoc.
Qed.

Lemma PDFParser_parse_returns file_bytes filename :
  exists s, PDFParser_parse file_bytes filename = Ok s.
Proof. unfold PDFParser_parse. apply try_except_Exception_ok. Qed.

Lemma DocxParser_parse_returns file_bytes filename :
  exists s, DocxParser_parse file_bytes filename = Ok s.
Proof. unfold DocxParser_parse. apply try_except_Exception_ok. Qed.

Lemma TextParser_parse_returns file_bytes filename :
  exists s, TextParser_parse file_bytes filename = Ok s.
Proof. unfold TextParser_parse. apply try_except_Exception_ok. Qed.

(** X1: whatever the optional packages and the GBK codec do, the [parse] of
    each built-in parser returns a string; none lets an exception out. *)
Theorem builtin_parse_never_raises (file_bytes : bytes) (filename : pystr) :
  (exists s, parse PDFParser file_bytes filename = Ok s)
  /\ (exists s, parse DocxParser file_bytes filename = Ok s)
  /\ (exists s, parse TextParser file_bytes filename = Ok s).
Proof.
  split; [apply PDFParser_parse_returns|].
  split; [apply DocxParser_parse_returns|apply TextParser_parse_returns].
Qed.

(** X2: when the PyPDF2 package is not installed, [PDFParser.parse] returns
    the install-PyPDF2 placeholder for every file, and so does the facade
    for every payload that decodes and every file the PDF parser supports,
    after any registrations. *)
Theorem PDFParser_parse_without_package :
  PyPDF2 = None ->
  (forall file_bytes filename,
     parse PDFParser file_bytes filename
     = Ok (lit "[PDF 处理需要安装 PyPDF2 库]"))
  /\ (forall extra base64_data filename mime_type,
        is_ok (b64decode base64_data) = true ->
        supports PDFParser mime_type filename = true ->
        extract_file_content (registered extra) base64_data filename mime_type
        = Ok (lit "[PDF 处理需要安装 PyPDF2 库]")).
Proof.
  intros Hnone.
  assert (Hparse : forall file_bytes filename,
            PDFParser_parse file_bytes filename
            = Ok (lit "[PDF 处理需要安装 PyPDF2 库]")).
  { intros file_bytes filename. unfold PDFParser_parse. by rewrite Hnone. }
  split; [exact Hparse|].
  intros extra base64_data filename mime_type Hdata Hpdf.
  unfold extract_file_content, get_parser. rewrite registered_parsers.
  destruct (b64decode base64_data) as [file_bytes|e]; [|done].
  cbn [mbind result_bind app get_parser_loop]. rewrite Hpdf.
  cbn [parse PDFParser]. by rewrite Hparse.
Qed.

(** X3: when the python-docx package is not installed, [DocxParser.parse]
    returns the install-python-docx placeholder for every file, and so
    does the facade for every payload that decodes and every file the Word
    parser supports and the PDF parser does not. *)
Theorem DocxParser_parse_without_package :
  docx = None ->
  (forall file_bytes filename,
     parse DocxParser file_bytes filename
     = Ok (lit "[DOCX 处理需要安装 python-docx 库]"))
  /\ (forall extra base64_data filename mime_type,
        is_ok (b64decode base64_data) = true ->
        supports PDFParser mime_type filename = false ->
        supports DocxParser mime_type filename = true ->
        extract_file_content (registered extra) base64_data filename mime_type
        = Ok (lit "[DOCX 处理需要安装 python-docx 库]")).
Proof.
  intros Hnone.
  assert (Hparse : forall file_bytes filename,
            DocxParser_parse file_bytes filename
            = Ok (lit "[DOCX 处理需要安装 python-docx 库]")).
  { intros file_bytes filename. unfold DocxParser_parse. by rewrite Hnone. }
  split; [exact Hparse|].
  intros extra base64_data filename mime_type Hdata Hpdf Hdocx.
  unfold extract_file_content, get_parser. rewrite registered_parsers.
  destruct (b64decode base64_data) as [file_bytes|e]; [|done].
  cbn [mbind result_bind app get_parser_loop]. rewrite Hpdf, Hdocx.
  cbn [parse DocxParser]. by rewrite Hparse.
Qed.

(** X4: when the reader opens the file and every page gives its text,
    [PDFParser.parse] returns the page texts, each followed by a newline,
    concatenated in page order and stripped. *)
Theorem PDFParser_parse_pages (PdfReader : pdf_library) (file_bytes : bytes)
    (filename : pystr) (texts : list pystr) :
  PyPDF2 = Some PdfReader ->
  PdfReader file_bytes = Ok (map Ok texts) ->
  parse PDFParser file_bytes filename
  = Ok (strip (join (map with_newline texts))).
Proof.
  intros Hlib Hread. cbn [parse PDFParser]. unfold PDFParser_parse.
  rewrite Hlib. cbn [import mbind result_bind]. rewrite Hread.
  cbn [mbind result_bind]. by rewrite PDFParser_pages_all_ok.
Qed.

(** X5: when the reader, or the text extraction of some page, raises [e],
    [PDFParser.parse] drops the pages read so far and returns the error
    placeholder carrying [str(e)]; an [ImportError] raised there is
    reported as the missing package instead. *)
Theorem PDFParser_parse_failure (PdfReader : pdf_library) (file_bytes : bytes)
    (filename : pystr) (e : exn) :
  PyPDF2 = Some PdfReader ->
  (PdfReader file_bytes = Raise e
   \/ exists texts rest,
        PdfReader file_bytes = Ok (map Ok texts ++ Raise e :: rest)) ->
  parse PDFParser file_bytes filename
  = Ok (if issubclass (exn_cls e) ImportError
        then lit "[PDF 处理需要安装 PyPDF2 库]"
        else lit "[PDF 处理错误: " ++ exn_str e ++ lit "]").
Proof.
  intros Hlib Hfail. cbn [parse PDFParser]. unfold PDFParser_parse.
  rewrite Hlib. cbn [import mbind result_bind].
  destruct Hfail as [->|(texts & rest & ->)]; cbn [mbind result_bind].
  - cbn [try_except]. by destruct (issubclass (exn_cls e) ImportError).
  - rewrite PDFParser_pages_raise. cbn [mbind result_bind try_except].
    by destruct (issubclass (exn_cls e) ImportError).
Qed.

(** X6: when the document opens, [DocxParser.parse] returns the paragraph
    texts, each followed by a newline, concatenated in document order and
    stripped. *)
Theorem DocxParser_parse_paragraphs (Document : docx_library)
    (file_bytes : bytes) (filename : pystr) (paragraphs : list pystr) :
  docx = Some Document ->
  Document file_bytes = Ok paragraphs ->
  parse DocxParser file_bytes filename
  = Ok (strip (join (map with_newline paragraphs))).
Proof.
  intros Hlib Hread. cbn [parse DocxParser]. unfold DocxParser_parse.
  rewrite Hlib. cbn [import mbind result_bind]. rewrite Hread.
  cbn [mbind result_bind]. by rewrite DocxParser_paragraphs_join.
Qed.

(** X7: when opening the document raises [e], [DocxParser.parse] returns
    the error placeholder carrying [str(e)]; an [ImportError] raised there
    is reported as the missing package instead. *)
Theorem DocxParser_parse_failure (Document : docx_library)
    (file_bytes : bytes) (filename : pystr) (e : exn) :
  docx = Some Document ->
  Document file_bytes = Raise e ->
  parse DocxParser file_bytes filename
  = Ok (if issubclass (exn_cls e) ImportError
        then lit "[DOCX 处理需要安装 python-docx 库]"
        else lit "[DOCX 处理错误: " ++ exn_str e ++ lit "]").
Proof.
  intros Hlib Hfail. cbn [parse DocxParser]. unfold DocxParser_parse.
  rewrite Hlib. cbn [import mbind result_bind]. rewrite Hfail.
  cbn [mbind result_bind try_except].
  by destruct (issubclass (exn_cls e) ImportError).
Qed.
End Parsers.

(** ** The registry and the facade, continued *)

Section FacadeMore.
Context {rt : Runtime}.

(** X8: for any registry, [get_parser] returns [p] exactly when [p] stands
    in the sequence, supports the file, and no parser before it does. *)
Theorem get_parser_first_match (factory : DocumentParserFactory)
    (mime_type filename : pystr) (p : DocumentParser) :
  get_parser factory mime_type filename = Some p <->
  exists before after,
    _parsers factory = before ++ p :: after
    /\ Forall (fun q => supports q mime_type filename = false) before
    /\ supports p mime_type filename = true.
Proof. unfold get_parser. apply get_parser_loop_Some. Qed.

(** X9: after any sequence of registrations the three built-in parsers
    still come first: a file one of them supports is routed as on the
    initial registry, and only a file none of them supports reaches the
    registered parsers, in their order of registration. *)
Theorem registered_keeps_builtin_priority (extra : list DocumentParser)
    (mime_type filename : pystr) :
  get_parser (registered extra) mime_type filename
  = match get_parser _parser_factory mime_type filename with
    | Some p => Some p
    | None => get_parser_loop extra mime_type filename
    end.
Proof.
  unfold get_parser. rewrite registered_parsers.
  destruct (get_parser_loop (_parsers _parser_factory) mime_type filename)
    as [p|] eqn:Hbuiltin.
  - by apply get_parser_loop_app_Some.
  - by apply get_parser_loop_app_None.
Qed.

Lemma b64decode_non_ascii (base64_data : pystr) :
  (exists c, c ∈ base64_data /\ (128 <= c)%N) ->
  b64decode base64_data
  = Raise {| exn_cls := ValueError;
             exn_str :=
               lit "string argument should contain only ASCII characters" |}.
Proof.
  intros (c & Hin & Hc). unfold b64decode.
  destruct (forallb (fun c => (c <? 128)%N) base64_data) eqn:Hall; [|done].
  rewrite forallb_forall in Hall. apply list_elem_of_In in Hin.
  apply Hall, N.ltb_lt in Hin. lia.
Qed.

(** X10: when the base64 decoding raises [e], the facade returns the
    error-processing placeholder with the file name and [str(e)], whatever
    the registry holds and whatever the MIME type; a payload with a
    character outside ASCII is such a case. *)
Theorem extract_file_content_undecodable_payload
    (factory : DocumentParserFactory) (base64_data filename mime_type : pystr) :
  (forall e,
     b64decode base64_data = Raise e ->
     extract_file_content factory base64_data filename mime_type
     = Ok (lit "[处理文件 " ++ filename ++ lit " 时出错: " ++ exn_str e
           ++ lit "]"))
  /\ ((exists c, c ∈ base64_data /\ (128 <= c)%N) ->
      extract_file_content factory base64_data filename mime_type
      = Ok (lit "[处理文件 " ++ filename ++ lit " 时出错: "
            ++ lit "string argument should contain only ASCII characters"
            ++ lit "]")).
Proof.
  assert (Hraise : forall e,
            b64decode base64_data = Raise e ->
            extract_file_content factory base64_data filename mime_type
            = Ok (lit "[处理文件 " ++ filename ++ lit " 时出错: " ++ exn_str e
                  ++ lit "]")).
  { intros e He. unfold extract_file_content. by rewrite He. }
  split; [exact Hraise|].
  intros Hforeign. by rewrite (Hraise _ (b64decode_non_ascii _ Hforeign)).
Qed.

(** X11: when the payload decodes and the registry chooses [p], the facade
    returns what [p.parse] returns, unchanged; if [p.parse] raises [e] the
    facade returns the error-processing placeholder with [str(e)]. *)
Theorem extract_file_content_delegates
    (factory : DocumentParserFactory) (base64_data filename mime_type : pystr)
    (file_bytes : bytes) (p : DocumentParser) :
  b64decode base64_data = Ok file_bytes ->
  get_parser factory mime_type filename = Some p ->
  extract_file_content factory base64_data filename mime_type
  = match parse p file_bytes filename with
    | Ok text => Ok text
    | Raise e =>
      Ok (lit "[处理文件 " ++ filename ++ lit " 时出错: " ++ exn_str e
          ++ lit "]")
    end.
Proof.
  unfold extract_file_content. intros -> ->. cbn [mbind result_bind].
  by destruct (parse p file_bytes filename).
Qed.

(** X12: for a payload that decodes to [file_bytes] and a file the PDF
    parser supports, the facade returns what [extract_pdf_content] returns
    on [file_bytes], after any registrations and whatever the file name. *)
Theorem extract_file_content_pdf_is_extract_pdf_content
    (extra : list DocumentParser) (base64_data filename mime_type : pystr)
    (file_bytes : bytes) :
  b64decode base64_data = Ok file_bytes ->
  supports PDFParser mime_type filename = true ->
  extract_file_content (registered extra) base64_data filename mime_type
  = extract_pdf_content file_bytes.
Proof.
  intros Hdata Hpdf. unfold extract_file_content, get_parser.
  rewrite Hdata, registered_parsers. cbn [mbind result_bind app get_parser_loop].
  rewrite Hpdf. unfold extract_pdf_content. cbn [parse PDFParser].
  transitivity (PDFParser_parse file_bytes filename); [|reflexivity].
  by destruct (PDFParser_parse_returns file_bytes filename) as [s ->].
Qed.

(** X13: for a payload that decodes to [file_bytes] and a file the Word
    parser supports and the PDF parser does not, the facade returns what
    [extract_docx_content] returns on [file_bytes]. *)
Theorem extract_file_content_docx_is_extract_docx_content
    (extra : list DocumentParser) (base64_data filename mime_type : pystr)
    (file_bytes : bytes) :
  b64decode base64_data = Ok file_bytes ->
  supports PDFParser mime_type filename = false ->
  supports DocxParser mime_type filename = true ->
  extract_file_content (registered extra) base64_data filename mime_type
  = extract_docx_content file_bytes.
Proof.
  intros Hdata Hpdf Hdocx. unfold extract_file_content, get_parser.
  rewrite Hdata, registered_parsers. cbn [mbind result_bind app get_parser_loop].
  rewrite Hpdf, Hdocx. unfold extract_docx_content. cbn [parse DocxParser].
  transitivity (DocxParser_parse file_bytes filename); [|reflexivity].
  by destruct (DocxParser_parse_returns file_bytes filename) as [s ->].
Qed.
(** X26: registering a parser a second time changes no routing: every file
    goes where it went after the first registration. *)
Theorem register_parser_twice_routes_alike
    (factory : DocumentParserFactory) (p : DocumentParser)
    (mime_type filename : pystr) :
  get_parser (register_parser (register_parser factory p) p) mime_type filename
  = get_parser (register_parser factory p) mime_type filename.
Proof.
  unfold get_parser. cbn [register_parser _parsers].
  destruct (get_parser_loop (_parsers factory ++ [p]) mime_type filename)
    as [q|] eqn:Hfirst.
  - by apply get_parser_loop_app_Some.
  - rewrite get_parser_loop_app_None by done.
    apply get_parser_loop_None in Hfirst.
    apply Forall_app in Hfirst as [_ Hp]. apply Forall_cons in Hp as [Hp _].
    cbn [get_parser_loop]. by rewrite Hp.
Qed.
End FacadeMore.

(** ** File names and the built-in [supports] predicates *)

Section Names.
Context {rt : Runtime}.

Lemma suffix_weak_total (a b s : pystr) :
  a `suffix_of` s -> b `suffix_of` s -> a `suffix_of` b \/ b `suffix_of` a.
Proof.
  rewrite !suffix_prefix_reverse. apply prefix_weak_total.
Qed.

(** Two endings neither of which ends the other cannot both end a name. *)
Lemma endswith_exclusive (a b s : pystr) :
  bool_decide (a `suffix_of` b) = false ->
  bool_decide (b `suffix_of` a) = false ->
  endswith s a = true -> endswith s b = false.
Proof.
  unfold endswith. intros Hab Hba Ha.
  apply bool_decide_eq_false. intros Hb.
  apply bool_decide_eq_true in Ha. apply bool_decide_eq_false in Hab, Hba.
  destruct (suffix_weak_total a b s Ha Hb); contradiction.
Qed.

Ltac other_ending H ext :=
  match type of H with
  | endswith ?s ?a = true =>
    rewrite (endswith_exclusive a (lit ext) s
               ltac:(by vm_compute) ltac:(by vm_compute) H)
  end.

Ltac no_text_ending H :=
  other_ending H ".txt"; other_ending H ".md"; other_ending H ".csv";
  other_ending H ".json"; other_ending H ".xml"; other_ending H ".html";
  other_ending H ".htm".

(** X14: the file-name endings of the three built-in parsers exclude one
    another, so for a MIME type none of them recognises at most one
    built-in parser supports a file: the order of the registry decides
    only between parsers matched through the MIME type. *)
Theorem builtin_supports_exclusive_by_name (mime_type filename : pystr) :
  unrecognised_mime mime_type = true ->
  (supports PDFParser mime_type filename = true ->
   supports DocxParser mime_type filename = false
   /\ supports TextParser mime_type filename = false)
  /\ (supports DocxParser mime_type filename = true ->
      supports TextParser mime_type filename = false).
Proof.
  unfold unrecognised_mime. intros Hmime.
  apply andb_prop in Hmime as [Hmime Htext].
  apply andb_prop in Hmime as [Hpdf Hword].
  apply negb_true_iff in Hpdf, Hword, Htext.
  cbn [supports PDFParser DocxParser TextParser].
  unfold PDFParser_supports, DocxParser_supports, TextParser_supports.
  rewrite Hpdf, Hword, Htext. cbn [orb].
  split.
  - intros Hname. other_ending Hname ".doc". other_ending Hname ".docx".
    no_text_ending Hname. done.
  - intros Hname. apply orb_prop in Hname as [Hname|Hname];
      no_text_ending Hname; done.
Qed.
End Names.

(** ** Stripping *)





(** ** Message content, continued *)

Section ContentMore.
Context {rt : Runtime}.

Lemma process_items_app factory l1 l2 : forall acc,
  process_items factory (l1 ++ l2) acc
  = (acc1 ← process_items factory l1 acc; process_items factory l2 acc1).
Proof.
  induction l1 as [|p l1 IH]; intros acc; [done|].
  cbn [app process_items].
  destruct (process_item factory p acc) as [acc1|e]; [|done].
  cbn [mbind result_bind]. apply IH.
Qed.

Lemma process_item_skipped factory p acc :
  skipped_part p = true -> process_item factory p acc = Ok acc.
Proof.
  destruct p as [s|d|]; cbn [skipped_part process_item]; [done| |done].
  intros Hskip. apply andb_prop in Hskip as [Htext Hfile].
  apply negb_true_iff in Htext, Hfile. by rewrite Htext, Hfile.
Qed.

Lemma process_items_plain factory parts : forall acc,
  Forall (fun p => plain_part p = true) parts ->
  exists txts,
    mapM part_text parts = Ok txts
    /\ process_items factory parts acc = Ok (acc ++ txts).
Proof.
  induction parts as [|p parts IH]; intros acc Hplain.
  - exists []. by rewrite app_nil_r.
  - apply Forall_cons in Hplain as [Hp Hplain].
    assert (exists t, part_text p = Ok t
                      /\ process_item factory p acc = Ok (acc ++ [t]))
      as (t & Ht & Hitem).
    { destruct p as [s|d|]; cbn [plain_part] in Hp; [by exists s| |done].
      cbn [part_text process_item]. rewrite Hp. by eexists. }
    destruct (IH (acc ++ [t]) Hplain) as (txts & Htxts & Hitems).
    exists (t :: txts). cbn [mapM process_items].
    rewrite Ht, Hitem. cbn [mbind result_bind]. rewrite Htxts, Hitems.
    split; [done|]. by rewrite <- app_assoc.
Qed.

(** X15: on a list made only of strings and of [type=text] parts,
    [process_message_content] and [get_message_text] return the same
    string. *)
Theorem process_message_content_agrees_with_get_message_text
    (factory : DocumentParserFactory) (parts : list part) :
  Forall (fun p => plain_part p = true) parts ->
  process_message_content factory (CList parts)
  = get_message_text (TList parts).
Proof.
  intros Hplain.
  destruct (process_items_plain factory parts [] Hplain)
    as (txts & Htxts & Hitems).
  cbn [process_message_content get_message_text].
  by rewrite Htxts, Hitems.
Qed.


(** X17: a part that is neither a string, nor tagged [type=text], nor a
    base64 file part leaves no trace: removing it from the list does not
    change the result. *)
Theorem process_message_content_skips
    (factory : DocumentParserFactory) (before after : list part) (p : part) :
  skipped_part p = true ->
  process_message_content factory (CList (before ++ p :: after))
  = process_message_content factory (CList (before ++ after)).
Proof.
  intros Hskip. cbn [process_message_content].
  rewrite !process_items_app.
  destruct (process_items factory before []) as [acc|e]; [|done].
  cbn [mbind result_bind process_items].
  by rewrite process_item_skipped.
Qed.

(** X18: a base64 file part that carries neither a file name nor a MIME
    type is looked up as [unknown_file] of type
    [application/octet-stream]; on the initial registry, with a payload
    that decodes, the message content becomes the label line followed by
    the unsupported-type placeholder for those defaults. *)
Theorem process_message_content_file_defaults (d : part_dict) :
  fields d !! "type" = Some (lit "file") ->
  fields d !! "source_type" = Some (lit "base64") ->
  fields d !! "mime_type" = None ->
  (forall md, metadata d = Some md -> md !! "filename" = None) ->
  is_ok (b64decode (dict_get (fields d) "data" [])) = true ->
  process_message_content _parser_factory (CList [PDict d])
  = Ok (lit "文件内容 (unknown_file):" ++ nl
        ++ lit "[不支持的文件类型: application/octet-stream for unknown_file]").
Proof.
  intros Htype Hsource Hmime Hname Hdata.
  cbn [process_message_content process_items process_item].
  unfold dict_get_is. rewrite Htype, Hsource.
  rewrite bool_decide_eq_false_2 by (by vm_compute).
  rewrite !bool_decide_eq_true_2 by done. cbn [andb].
  assert (dict_get (default ∅ (metadata d)) "filename" (lit "unknown_file")
          = lit "unknown_file") as ->.
  { unfold dict_get. destruct (metadata d) as [md|] eqn:Hmd; cbn [default from_option id].
    - by rewrite (Hname md).
    - by rewrite lookup_empty. }
  assert (dict_get (fields d) "mime_type" (lit "application/octet-stream")
          = lit "application/octet-stream") as ->.
  { unfold dict_get. by rewrite Hmime. }
  rewrite extract_file_content_no_parser by (done || by vm_compute).
  by vm_compute.
Qed.



End ContentMore.

(** ** [load_chat_model] *)

Section LoadChatModel.
Context {M : Type} (init_chat_model : pystr -> pystr -> result M).

Lemma split_once_from_no_sep sep s : forall before,
  sep ∉ s -> split_once_from sep before s = [before ++ s].
Proof.
  induction s as [|c s IH]; intros before Hsep; cbn [split_once_from].
  - by rewrite app_nil_r.
  - apply not_elem_of_cons in Hsep as [Hc Hsep].
    destruct (N.eqb_spec c sep) as [->|_]; [done|].
    rewrite IH by done. by rewrite <- app_assoc.
Qed.

Lemma split_once_from_sep sep a b : forall before,
  sep ∉ a -> split_once_from sep before (a ++ sep :: b) = [before ++ a; b].
Proof.
  induction a as [|c a IH]; intros before Hsep; cbn [app split_once_from].
  - rewrite N.eqb_refl. by rewrite app_nil_r.
  - apply not_elem_of_cons in Hsep as [Hc Hsep].
    destruct (N.eqb_spec c sep) as [->|_]; [done|].
    rewrite IH by done. by rewrite <- app_assoc.
Qed.

(** X20: a name without a slash makes [load_chat_model] raise the
    [ValueError] of the tuple assignment; [init_chat_model] is not
    called. *)
Theorem load_chat_model_without_slash (fully_specified_name : pystr) :
  slash ∉ fully_specified_name ->
  load_chat_model init_chat_model fully_specified_name
  = Raise {| exn_cls := ValueError;
             exn_str := lit "not enough values to unpack (expected 2, got 1)" |}.
Proof.
  intros Hno. unfold load_chat_model, split_once.
  by rewrite split_once_from_no_sep.
Qed.

(** X21: a name is cut at its first slash: what stands before it is the
    provider, everything after it, further slashes included, is the model,
    and the result is [init_chat_model(model, model_provider=provider)];
    every name with a slash is of that form. *)
Theorem load_chat_model_splits_at_first_slash :
  (forall provider model,
     slash ∉ provider ->
     load_chat_model init_chat_model (provider ++ slash :: model)
     = init_chat_model model provider)
  /\ (forall fully_specified_name,
        slash ∈ fully_specified_name ->
        exists provider model,
          fully_specified_name = provider ++ slash :: model
          /\ (slash ∉ provider)
          /\ load_chat_model init_chat_model fully_specified_name
             = init_chat_model model provider).
Proof.
  assert (Hsplit : forall provider model,
            slash ∉ provider ->
            load_chat_model init_chat_model (provider ++ slash :: model)
            = init_chat_model model provider).
  { intros provider model Hno. unfold load_chat_model, split_once.
    by rewrite split_once_from_sep. }
  split; [exact Hsplit|].
  intros name Hin.
  apply list_elem_of_split_l in Hin as (provider & model & -> & Hno).
  exists provider, model. split; [done|]. split; [done|]. by apply Hsplit.
Qed.
End LoadChatModel.

(** ** Message lists, continued *)

Section MessagesMore.
Context {rt : Runtime} (factory : DocumentParserFactory).

Lemma processed_set_content m :
  exists s,
    process_message_content factory (content m) = Ok s
    /\ processed factory m = set_content s m.
Proof.
  unfold processed.
  destruct (process_message_content_returns factory (content m)) as [s ->].
  by exists s.
Qed.

(** Processing an object that is in its original or in its processed state
    leads to the processed state. *)
Lemma reprocess m0 m :
  m = m0 \/ m = processed factory m0 ->
  exists s,
    process_message_content factory (content m) = Ok s
    /\ set_content s m = processed factory m0
    /\ has_model_copy m = has_model_copy m0.
Proof.
  destruct (processed_set_content m0) as (s0 & Hs0 & Hp0).
  intros [->| ->].
  - exists s0. by rewrite Hp0.
  - rewrite Hp0. by exists s0.
Qed.

(** One turn of the loop. *)
Lemma process_messages_loop_step r rest acc (h : store) m s :
  h !! r = Some m ->
  process_message_content factory (content m) = Ok s ->
  process_messages_loop factory (r :: rest) acc h
  = let r' := if has_model_copy m then fresh (dom h) else r in
    process_messages_loop factory rest (acc ++ [r'])
      (<[r' := set_content s m]> h).
Proof.
  intros Hm Hs. cbn [process_messages_loop]. rewrite Hm.
  cbn [mbind option_bind]. destruct (has_model_copy m).
  - cbn [model_copy]. rewrite Hs, lookup_insert_eq. cbn [mbind option_bind].
    by rewrite insert_insert_eq.
  - by rewrite Hs, Hm.
Qed.

Lemma tracks_refl (h : store) : tracks factory h h.
Proof. intros r m0 Hr. by left. Qed.

Lemma tracks_fresh (h0 h : store) : tracks factory h0 h -> h0 !! fresh (dom h) = None.
Proof.
  intros Htr. destruct (h0 !! fresh (dom h)) as [m|] eqn:Hm; [|done].
  assert (h !! fresh (dom h) = None) as Hnone
    by (apply not_elem_of_dom, is_fresh).
  destruct (Htr _ _ Hm); congruence.
Qed.

Lemma tracks_step (h0 h : store) r m0 m :
  tracks factory h0 h -> h0 !! r = Some m0 -> h !! r = Some m ->
  let r' := if has_model_copy m then fresh (dom h) else r in
  tracks factory h0 (<[r' := processed factory m0]> h).
Proof.
  intros Htr Hr0 Hr r' x mx Hx.
  destruct (decide (r' = x)) as [<-|Hne].
  - rewrite lookup_insert_eq. subst r'. destruct (has_model_copy m).
    + rewrite (tracks_fresh h0 h Htr) in Hx. done.
    + right. congruence.
  - rewrite lookup_insert_ne by done. by apply Htr.
Qed.

Lemma process_messages_loop_general (h0 : store) messages :
  forall acc (h : store),
  tracks factory h0 h ->
  Forall (fun r => is_Some (h0 !! r)) messages ->
  exists (h' : store) out,
    process_messages_loop factory messages acc h = Some (h', Ok (acc ++ out))
    /\ tracks factory h0 h'
    /\ (forall x v, h0 !! x = None -> h !! x = Some v -> h' !! x = Some v)
    /\ (forall x m0, h0 !! x = Some m0 ->
          h !! x = Some (processed factory m0) ->
          h' !! x = Some (processed factory m0))
    /\ Forall2 (fun r r' => exists m0,
                  h0 !! r = Some m0
                  /\ h' !! r' = Some (processed factory m0)
                  /\ if has_model_copy m0 then h !! r' = None else r' = r)
         messages out.
Proof.
  induction messages as [|r rest IH]; intros acc h Htr Hall.
  - exists h, []. rewrite app_nil_r. split; [done|]. split; [done|].
    split; [done|]. split; [done|]. constructor.
  - apply Forall_cons in Hall as [[m0 Hr0] Hall].
    assert (exists m, h !! r = Some m /\ (m = m0 \/ m = processed factory m0))
      as (m & Hr & Hm).
    { destruct (Htr _ _ Hr0) as [?|?]; eexists; eauto. }
    destruct (reprocess m0 m Hm) as (s & Hs & Hset & Hcopy).
    pose proof (tracks_step h0 h r m0 m Htr Hr0 Hr) as Htr2.
    pose proof (process_messages_loop_step r rest acc h m s Hr Hs) as Hstep.
    rewrite Hset in Hstep. cbv zeta in Htr2, Hstep.
    set (r' := if has_model_copy m then fresh (dom h) else r) in *.
    set (h2 := <[r' := processed factory m0]> h) in *.
    assert (Hr'0 : if has_model_copy m0 then h !! r' = None /\ h0 !! r' = None
                   else r' = r).
    { subst r'. rewrite <- Hcopy. destruct (has_model_copy m); [|done].
      split; [apply not_elem_of_dom, is_fresh|by apply tracks_fresh]. }
    destruct (IH (acc ++ [r']) h2 Htr2 Hall)
      as (h' & out & Hloop & Htr' & Hfresh & Hsettled & Hout).
    assert (Hhead : h' !! r' = Some (processed factory m0)).
    { destruct (has_model_copy m0).
      - destruct Hr'0 as [_ Hnew]. apply Hfresh; [done|].
        apply lookup_insert_eq.
      - rewrite Hr'0. apply Hsettled; [done|].
        subst h2. rewrite Hr'0. apply lookup_insert_eq. }
    assert (Hother : forall x, x <> r' -> h2 !! x = h !! x).
    { intros x Hx. subst h2. by rewrite lookup_insert_ne. }
    assert (Hne0 : forall x, h0 !! x = None -> is_Some (h !! x) -> x <> r').
    { intros x Hx0 [v Hx] ->. destruct (has_model_copy m0).
      - destruct Hr'0. congruence.
      - rewrite Hr'0 in Hx0. congruence. }
    exists h', (r' :: out). split; [|split; [done|split; [|split]]].
    + rewrite Hstep, Hloop. by rewrite <- app_assoc.
    + intros x v Hx0 Hx. apply Hfresh; [done|].
      rewrite Hother; [done|]. by apply Hne0.
    + intros x mx Hx0 Hx. destruct (decide (x = r')) as [->|Hne].
      * destruct (has_model_copy m0).
        -- destruct Hr'0. congruence.
        -- rewrite Hr'0 in *. by simplify_eq.
      * apply Hsettled; [done|]. by rewrite Hother.
    + constructor.
      * exists m0. split; [done|]. split; [done|].
        destruct (has_model_copy m0); [by destruct Hr'0|done].
      * eapply Forall2_impl; [exact Hout|].
        intros x x' (mx & Hx0 & Hx' & Hkind). exists mx.
        split; [done|]. split; [done|].
        destruct (has_model_copy mx); [|done].
        destruct (decide (x' = r')) as [->|Hne].
        -- subst h2. by rewrite lookup_insert_eq in Hkind.
        -- by rewrite <- Hother.
Qed.

(** X22: for every list of messages, whether or not they offer
    [model_copy] and whether or not an object occurs twice,
    [process_messages] returns a list of the same length in which each
    message has the attributes of the corresponding input and, as
    content, the processed content of that input. *)
Theorem process_messages_returns_processed (messages : list ref) (h : store) :
  Forall (fun r => is_Some (h !! r)) messages ->
  exists (h' : store) out,
    process_messages factory messages h = Some (h', Ok out)
    /\ length out = length messages
    /\ Forall2 (fun r r' => exists m s,
                  h !! r = Some m
                  /\ process_message_content factory (content m) = Ok s
                  /\ h' !! r' = Some (set_content s m))
         messages out.
Proof.
  intros Hall.
  destruct (process_messages_loop_general h messages [] h (tracks_refl h) Hall)
    as (h' & out & Hloop & _ & _ & _ & Hout).
  exists h', out. split; [exact Hloop|]. split.
  - symmetry. by eapply Forall2_length.
  - eapply Forall2_impl; [exact Hout|].
    intros r r' (m & Hr & Hr' & _).
    destruct (processed_set_content m) as (s & Hs & Hp).
    exists m, s. by rewrite <- Hp.
Qed.
Lemma Forall2_diag_inv {A} (Q : A -> A -> Prop) l :
  Forall2 Q l l -> Forall (fun x => Q x x) l.
Proof.
  induction l as [|x l IH]; intros HQ; [constructor|].
  apply Forall2_cons in HQ as [Hx HQ]. constructor; [done|by apply IH].
Qed.

Lemma process_messages_loop_plain (h0 : store) messages :
  forall acc (h : store),
  tracks factory h0 h ->
  Forall (fun r => exists m0, h0 !! r = Some m0 /\ has_model_copy m0 = false)
    messages ->
  exists h' : store,
    process_messages_loop factory messages acc h
    = Some (h', Ok (acc ++ messages))
    /\ dom h' = dom h.
Proof.
  induction messages as [|r rest IH]; intros acc h Htr Hall.
  - exists h. by rewrite app_nil_r.
  - apply Forall_cons in Hall as [(m0 & Hr0 & Hplain) Hall].
    assert (exists m, h !! r = Some m /\ (m = m0 \/ m = processed factory m0))
      as (m & Hr & Hm).
    { destruct (Htr _ _ Hr0) as [?|?]; eexists; eauto. }
    destruct (reprocess m0 m Hm) as (s & Hs & Hset & Hcopy).
    pose proof (tracks_step h0 h r m0 m Htr Hr0 Hr) as Htr2.
    pose proof (process_messages_loop_step r rest acc h m s Hr Hs) as Hstep.
    rewrite Hset in Hstep. rewrite Hcopy, Hplain in Htr2, Hstep.
    cbv zeta in Htr2, Hstep.
    destruct (IH (acc ++ [r]) _ Htr2 Hall) as (h' & Hloop & Hdom).
    exists h'. split.
    + rewrite Hstep, Hloop. by rewrite <- app_assoc.
    + rewrite Hdom. by apply dom_insert_lookup_L.
Qed.

Lemma process_messages_loop_distinct (h0 : store) messages :
  forall acc (h : store),
  tracks factory h0 h ->
  Forall (fun r => exists m0, h0 !! r = Some m0 /\ has_model_copy m0 = true)
    messages ->
  exists (h' : store) out,
    process_messages_loop factory messages acc h = Some (h', Ok (acc ++ out))
    /\ NoDup out
    /\ Forall (fun r' => h !! r' = None) out.
Proof.
  induction messages as [|r rest IH]; intros acc h Htr Hall.
  - exists h, []. rewrite app_nil_r. split; [done|].
    split; constructor.
  - apply Forall_cons in Hall as [(m0 & Hr0 & Hcopyable) Hall].
    assert (exists m, h !! r = Some m /\ (m = m0 \/ m = processed factory m0))
      as (m & Hr & Hm).
    { destruct (Htr _ _ Hr0) as [?|?]; eexists; eauto. }
    destruct (reprocess m0 m Hm) as (s & Hs & Hset & Hcopy).
    pose proof (tracks_step h0 h r m0 m Htr Hr0 Hr) as Htr2.
    pose proof (process_messages_loop_step r rest acc h m s Hr Hs) as Hstep.
    rewrite Hset in Hstep. rewrite Hcopy, Hcopyable in Htr2, Hstep.
    cbv zeta in Htr2, Hstep.
    destruct (IH (acc ++ [fresh (dom h)]) _ Htr2 Hall)
      as (h' & out & Hloop & Hnodup & Hnew).
    exists h', (fresh (dom h) :: out). split; [|split].
    + rewrite Hstep, Hloop. by rewrite <- app_assoc.
    + constructor; [|done]. intros Hin.
      rewrite Forall_forall in Hnew. specialize (Hnew _ Hin).
      by rewrite lookup_insert_eq in Hnew.
    + constructor; [apply not_elem_of_dom, is_fresh|].
      eapply Forall_impl; [exact Hnew|]. intros x Hx. cbn beta in Hx.
      destruct (decide (fresh (dom h) = x)) as [<-|Hne].
      * by rewrite lookup_insert_eq in Hx.
      * by rewrite lookup_insert_ne in Hx.
Qed.

Lemma processed_idempotent m :
  processed factory (processed factory m) = processed factory m.
Proof.
  destruct (processed_set_content m) as (s & Hs & ->).
  by unfold processed.
Qed.

(** X23: when no message of the list offers [model_copy], the list
    returned is the list given, object for object; no object is created,
    and each object of the list now holds its processed content. *)
Theorem process_messages_in_place (messages : list ref) (h : store) :
  Forall (fun r => exists m, h !! r = Some m /\ has_model_copy m = false)
    messages ->
  exists h' : store,
    process_messages factory messages h = Some (h', Ok messages)
    /\ dom h' = dom h
    /\ Forall (fun r => exists m s,
                 h !! r = Some m
                 /\ process_message_content factory (content m) = Ok s
                 /\ h' !! r = Some (set_content s m))
         messages.
Proof.
  intros Hall.
  destruct (process_messages_loop_plain h messages [] h (tracks_refl h) Hall)
    as (h' & Hloop & Hdom).
  assert (Hvalid : Forall (fun r => is_Some (h !! r)) messages).
  { eapply Forall_impl; [exact Hall|]. intros r (m & Hr & _). by exists m. }
  destruct (process_messages_loop_general h messages [] h (tracks_refl h) Hvalid)
    as (h2 & out & Hloop2 & _ & _ & _ & Hout).
  rewrite Hloop in Hloop2. injection Hloop2 as <- <-.
  exists h'. split; [exact Hloop|]. split; [exact Hdom|].
  apply Forall2_diag_inv in Hout.
  eapply Forall_impl; [exact Hout|].
  intros r (m & Hr & Hr' & _).
  destruct (processed_set_content m) as (s & Hs & Hp).
  exists m, s. by rewrite <- Hp.
Qed.

(** X24: when every message of the list offers [model_copy], the objects
    returned are new to the store and pairwise distinct, also when one
    input object occurs several times in the list. *)
Theorem process_messages_copies_are_distinct (messages : list ref) (h : store) :
  Forall (fun r => exists m, h !! r = Some m /\ has_model_copy m = true)
    messages ->
  exists (h' : store) out,
    process_messages factory messages h = Some (h', Ok out)
    /\ NoDup out
    /\ Forall (fun r' => h !! r' = None) out.
Proof.
  intros Hall.
  exact (process_messages_loop_distinct h messages [] h (tracks_refl h) Hall).
Qed.

(** X25: processing the list returned by [process_messages] a second time
    returns messages equal, attribute by attribute, to those returned the
    first time. *)
Theorem process_messages_twice (messages : list ref) (h : store) :
  Forall (fun r => is_Some (h !! r)) messages ->
  exists (h1 : store) out1 (h2 : store) out2,
    process_messages factory messages h = Some (h1, Ok out1)
    /\ process_messages factory out1 h1 = Some (h2, Ok out2)
    /\ Forall2 (fun r1 r2 => h2 !! r2 = h1 !! r1) out1 out2.
Proof.
  intros Hall.
  destruct (process_messages_loop_general h messages [] h (tracks_refl h) Hall)
    as (h1 & out1 & Hloop1 & _ & _ & _ & Hout1).
  assert (Hdone : Forall (fun r1 => exists m0,
                            h1 !! r1 = Some (processed factory m0)) out1).
  { eapply Forall2_Forall_r; [exact Hout1|].
    apply Forall_forall. intros r _ r1 (m0 & _ & Hr1 & _). by exists m0. }
  assert (Hvalid : Forall (fun r1 => is_Some (h1 !! r1)) out1).
  { eapply Forall_impl; [exact Hdone|]. intros r1 [m0 Hr1]. by eexists. }
  destruct (process_messages_loop_general h1 out1 [] h1 (tracks_refl h1) Hvalid)
    as (h2 & out2 & Hloop2 & _ & _ & _ & Hout2).
  exists h1, out1, h2, out2. split; [exact Hloop1|]. split; [exact Hloop2|].
  eapply Forall2_with_left; [exact Hdone|exact Hout2|].
  intros r1 r2 [m0 Hr1] (m1 & Hr1' & Hr2 & _).
  rewrite Hr1 in Hr1'. injection Hr1' as <-.
  by rewrite Hr2, processed_idempotent.
Qed.
End MessagesMore.

(** ** Concrete instances of the further properties *)

Lemma PDFParser_parse_without_package_witness :
  parse (@PDFParser bare_runtime) [x68; x69] (lit "a.pdf")
  = Ok (lit "[PDF 处理需要安装 PyPDF2 库]").
Proof.
  destruct (@PDFParser_parse_without_package bare_runtime eq_refl)
    as [Hparse _].
  apply Hparse.
Defined.

Lemma DocxParser_parse_without_package_witness :
  parse (@DocxParser bare_runtime) [x68; x69] (lit "a.docx")
  = Ok (lit "[DOCX 处理需要安装 python-docx 库]").
Proof.
  destruct (@DocxParser_parse_without_package bare_runtime eq_refl)
    as [Hparse _].
  apply Hparse.
Defined.

Lemma PDFParser_parse_pages_witness :
  parse (@PDFParser full_runtime) [x68; x69] (lit "a.pdf")
  = Ok (lit "first page" ++ nl ++ lit "second page").
Proof.
  exact (@PDFParser_parse_pages full_runtime two_page_pdf [x68; x69]
           (lit "a.pdf") [lit "first page"; lit "second page"]
           eq_refl eq_refl).
Defined.

Lemma PDFParser_parse_failure_witness :
  parse (@PDFParser broken_files_runtime) [x68; x69] (lit "a.pdf")
  = Ok (lit "[PDF 处理错误: EOF marker not found]").
Proof.
  exact (@PDFParser_parse_failure broken_files_runtime failing_pdf [x68; x69]
           (lit "a.pdf")
           {| exn_cls := OtherError; exn_str := lit "EOF marker not found" |}
           eq_refl (or_introl eq_refl)).
Defined.

Lemma DocxParser_parse_paragraphs_witness :
  parse (@DocxParser full_runtime) [x68; x69] (lit "a.docx")
  = Ok (lit "Title" ++ nl ++ lit "Body text.").
Proof.
  exact (@DocxParser_parse_paragraphs full_runtime two_paragraph_docx
           [x68; x69] (lit "a.docx") [lit "Title"; lit "Body text."]
           eq_refl eq_refl).
Defined.

Lemma DocxParser_parse_failure_witness :
  parse (@DocxParser broken_files_runtime) [x68; x69] (lit "a.docx")
  = Ok (lit "[DOCX 处理错误: File is not a zip file]").
Proof.
  exact (@DocxParser_parse_failure broken_files_runtime failing_docx
           [x68; x69] (lit "a.docx")
           {| exn_cls := OtherError; exn_str := lit "File is not a zip file" |}
           eq_refl eq_refl).
Defined.

Lemma get_parser_first_match_witness :
  supports (@TextParser bare_runtime) (lit "text/plain") (lit "a.txt") = true
  /\ get_parser (@_parser_factory bare_runtime) (lit "text/plain") (lit "a.txt")
     = Some (@TextParser bare_runtime).
Proof.
  destruct (get_parser_first_match (@_parser_factory bare_runtime)
              (lit "text/plain") (lit "a.txt") (@TextParser bare_runtime))
    as [Hto Hfrom].
  destruct (Hto eq_refl) as (before & after & _ & _ & Hsupports).
  split; [exact Hsupports|].
  apply Hfrom. exists [@PDFParser bare_runtime; @DocxParser bare_runtime], [].
  split; [reflexivity|]. split; [|reflexivity].
  repeat constructor.
Defined.

Lemma extract_file_content_undecodable_payload_witness :
  extract_file_content (@_parser_factory bare_runtime)
    (lit "aGk") (lit "a.txt") (lit "text/plain")
  = Ok (lit "[处理文件 a.txt 时出错: Incorrect padding]").
Proof.
  destruct (extract_file_content_undecodable_payload
              (@_parser_factory bare_runtime)
              (lit "aGk") (lit "a.txt") (lit "text/plain")) as [Hraise _].
  exact (Hraise (binascii_error (lit "Incorrect padding")) eq_refl).
Defined.

Lemma extract_file_content_delegates_witness :
  extract_file_content
    (register_parser (@_parser_factory bare_runtime) ZipParser)
    (lit "aGk=") (lit "archive.zip") (lit "application/zip")
  = Ok (lit "[zip archive archive.zip]").
Proof.
  exact (extract_file_content_delegates
           (register_parser (@_parser_factory bare_runtime) ZipParser)
           (lit "aGk=") (lit "archive.zip") (lit "application/zip")
           [x68; x69] ZipParser eq_refl eq_refl).
Defined.

Lemma extract_file_content_pdf_is_extract_pdf_content_witness :
  extract_file_content (@registered full_runtime [ZipParser])
    (lit "aGk=") (lit "Report.PDF") (lit "application/octet-stream")
  = @extract_pdf_content full_runtime [x68; x69].
Proof.
  apply (@extract_file_content_pdf_is_extract_pdf_content full_runtime);
    reflexivity.
Defined.

Lemma extract_file_content_docx_is_extract_docx_content_witness :
  extract_file_content (@registered full_runtime [])
    (lit "aGk=") (lit "letter.docx") (lit "application/octet-stream")
  = @extract_docx_content full_runtime [x68; x69].
Proof.
  apply (@extract_file_content_docx_is_extract_docx_content full_runtime);
    reflexivity.
Defined.

Lemma builtin_supports_exclusive_by_name_witness :
  supports (@DocxParser bare_runtime)
    (lit "application/octet-stream") (lit "Report.PDF") = false
  /\ supports (@TextParser bare_runtime)
       (lit "application/octet-stream") (lit "Report.PDF") = false.
Proof.
  destruct (@builtin_supports_exclusive_by_name bare_runtime
              (lit "application/octet-stream") (lit "Report.PDF") eq_refl)
    as [Hpdf _].
  apply Hpdf. reflexivity.
Defined.

Lemma process_message_content_agrees_with_get_message_text_witness :
  process_message_content (@_parser_factory bare_runtime)
    (CList [ PStr (lit "see ");
             PDict {| fields := {[ "type" := lit "text";
                                   "text" := lit "below " ]};
                      metadata := None |} ])
  = get_message_text
      (TList [ PStr (lit "see ");
               PDict {| fields := {[ "type" := lit "text";
                                     "text" := lit "below " ]};
                        metadata := None |} ]).
Proof.
  apply process_message_content_agrees_with_get_message_text.
  repeat constructor.
Defined.

Lemma process_message_content_skips_witness :
  process_message_content (@_parser_factory bare_runtime)
    (CList ([PStr (lit "a")] ++ POther :: [PStr (lit "b")]))
  = process_message_content (@_parser_factory bare_runtime)
      (CList ([PStr (lit "a")] ++ [PStr (lit "b")])).
Proof.
  apply process_message_content_skips. reflexivity.
Defined.

Lemma process_message_content_file_defaults_witness :
  process_message_content (@_parser_factory bare_runtime)
    (CList [ PDict {| fields := {[ "type" := lit "file";
                                   "source_type" := lit "base64";
                                   "data" := lit "aGk=" ]};
                      metadata := Some ∅ |} ])
  = Ok (lit "文件内容 (unknown_file):" ++ nl
        ++ lit "[不支持的文件类型: application/octet-stream for unknown_file]").
Proof.
  apply (@process_message_content_file_defaults bare_runtime);
    try reflexivity.
  intros md Hmd. injection Hmd as <-. reflexivity.
Defined.


Lemma load_chat_model_without_slash_witness :
  load_chat_model (fun model provider => Ok (provider, model)) (lit "gpt-4o")
  = Raise {| exn_cls := ValueError;
             exn_str := lit "not enough values to unpack (expected 2, got 1)" |}.
Proof.
  apply load_chat_model_without_slash.
  apply (bool_decide_unpack _). vm_compute. exact I.
Defined.

Lemma load_chat_model_splits_at_first_slash_witness :
  load_chat_model (fun model provider => Ok (provider, model))
    (lit "openai" ++ slash :: lit "gpt-4o/mini")
  = Ok (lit "openai", lit "gpt-4o/mini").
Proof.
  destruct (load_chat_model_splits_at_first_slash
              (fun model provider => Ok (provider, model))) as [Hsplit _].
  apply (Hsplit (lit "openai") (lit "gpt-4o/mini")).
  apply (bool_decide_unpack _). vm_compute. exact I.
Defined.

Lemma process_messages_returns_processed_witness :
  exists (h' : store) out,
    process_messages (@_parser_factory bare_runtime)
      [1%positive; 2%positive; 1%positive] mixed_store = Some (h', Ok out)
    /\ length out = 3.
Proof.
  destruct (process_messages_returns_processed
              (@_parser_factory bare_runtime)
              [1%positive; 2%positive; 1%positive] mixed_store)
    as (h' & out & Hrun & Hlen & _).
  - repeat constructor; eexists; reflexivity.
  - by exists h', out.
Defined.

Lemma process_messages_in_place_witness :
  exists h' : store,
    process_messages (@_parser_factory bare_runtime)
      [1%positive; 1%positive] plain_store
    = Some (h', Ok [1%positive; 1%positive])
    /\ dom h' = dom plain_store.
Proof.
  destruct (process_messages_in_place
              (@_parser_factory bare_runtime)
              [1%positive; 1%positive] plain_store)
    as (h' & Hrun & Hdom & _).
  - repeat constructor; exists plain_message; split; reflexivity.
  - by exists h'.
Defined.

Lemma process_messages_copies_are_distinct_witness :
  exists (h' : store) out,
    process_messages (@_parser_factory bare_runtime)
      [2%positive; 2%positive] mixed_store = Some (h', Ok out)
    /\ NoDup out.
Proof.
  destruct (process_messages_copies_are_distinct
              (@_parser_factory bare_runtime)
              [2%positive; 2%positive] mixed_store)
    as (h' & out & Hrun & Hnodup & _).
  - repeat constructor; exists copyable_message; split; reflexivity.
  - by exists h', out.
Defined.

Lemma process_messages_twice_witness :
  exists (h1 : store) out1 (h2 : store) out2,
    process_messages (@_parser_factory bare_runtime)
      [1%positive; 2%positive] mixed_store = Some (h1, Ok out1)
    /\ process_messages (@_parser_factory bare_runtime) out1 h1
       = Some (h2, Ok out2)
    /\ Forall2 (fun r1 r2 => h2 !! r2 = h1 !! r1) out1 out2.
Proof.
  apply process_messages_twice.
  repeat constructor; eexists; reflexivity.
Defined.
